(** * extensible: typed option dictionaries and the extension registry

    A shallow embedding of [extensible/options.py], [extensible/errors.py]
    and the class [ExtensionRegistry] of [extensible/extensible.py],
    followed by the properties their specification states.

    Modelling conventions.
    - A Python [str] is a [string] over the ASCII alphabet; [str.lower()]
      is the ASCII lower-casing, and [<] on [str] is the lexicographic
      order on character codes.
    - A Python [dict] is an insertion-ordered association list with at most
      one binding per key.  Order is kept because the code observes it: the
      iteration order of the raw mapping decides which spelling of a key
      survives in [keymap], and [casted()] raises at the first key whose
      coercion fails.
    - A Python [set] is a duplicate-free list; the only consumer of its
      iteration order in this code is [sorted].
    - An exception is a value of [Exception]; a function that can raise
      returns [result A = Exception + A].  A method that could change its
      object returns the object after the call next to its outcome.
    - The conversions [int(x)], [float(x)] and [str(x)] of the host language
      are not code of this package: they are the fields of [Builtins], and
      the properties hold for every such host.  [CPython.host] is one, used
      to run examples.
    - [importlib.import_module] is a parameter of the registry as well: an
      arbitrary state transformer on the process and the catalog.

    A catalog alone ([ExtensionRegistry]) is studied in a world whose
    [Host] component stands for everything else in the process.  The
    process-wide table of catalogs behind [ExtensionRegistry.registry] and
    the class methods of [Extensible] are embedded in [Extensible], where a
    catalog is identified by the key it is stored under; the constructor of
    an extension class is a parameter. *)

From Stdlib Require Import List String Ascii ZArith NArith Bool Lia.
From Stdlib Require Import Sorting.Sorted Sorting.Permutation.
From Stdlib Require Import Structures.OrdersEx Numbers.DecimalString.
From Stdlib Require Floats.PrimFloat Floats.SpecFloat Floats.FloatOps Floats.FloatAxioms.
Import ListNotations.
Local Open Scope string_scope.

(* ================================================================= *)
(** ** Host language: strings *)

(** [c.lower()] on one ASCII character: codes 65..90 move up by 32. *)
Definition ascii_lower (c : ascii) : ascii :=
  let n := N_of_ascii c in
  if (65 <=? n)%N && (n <=? 90)%N then ascii_of_N (n + 32) else c.

(** [s.lower()] *)
Fixpoint lower (s : string) : string :=
  match s with
  | EmptyString => EmptyString
  | String c s' => String (ascii_lower c) (lower s')
  end.

(** [a <= b] on [str]. *)
Definition str_le (a b : string) : bool :=
  match String_as_OT.compare a b with
  | Gt => false
  | _ => true
  end.

(** [a < b] on [str], as a proposition. *)
Definition str_lt (a b : string) : Prop := String_as_OT.lt a b.

(** [x in l] for a list of strings. *)
Definition str_in (x : string) (l : list string) : bool :=
  existsb (String.eqb x) l.

(** [sep.join(l)] *)
Definition join (sep : string) (l : list string) : string :=
  String.concat sep l.

(* ================================================================= *)
(** ** Host language: sets of strings and [sorted] *)

(** [set(l)] *)
Definition set_of (l : list string) : list string := nodup string_dec l.

(** [a - b] *)
Definition set_diff (a b : list string) : list string :=
  filter (fun x => negb (str_in x b)) a.

(** [a | b] *)
Definition set_union (a b : list string) : list string :=
  nodup string_dec (a ++ b).

Fixpoint insert_sorted (x : string) (l : list string) : list string :=
  match l with
  | [] => [x]
  | y :: l' => if str_le x y then x :: l else y :: insert_sorted x l'
  end.

(** [sorted(l)]: the ascending rearrangement of [l]. *)
Fixpoint sorted (l : list string) : list string :=
  match l with
  | [] => []
  | x :: l' => insert_sorted x (sorted l')
  end.

(* ================================================================= *)
(** ** Host language: dictionaries keyed by strings *)

Definition dict (V : Type) : Type := list (string * V).

(** [d.get(k)] *)
Fixpoint dict_get {V : Type} (k : string) (d : dict V) : option V :=
  match d with
  | [] => None
  | (k', v) :: d' => if String.eqb k k' then Some v else dict_get k d'
  end.

(** [k in d] *)
Definition dict_contains {V : Type} (k : string) (d : dict V) : bool :=
  match dict_get k d with
  | Some _ => true
  | None => false
  end.

(** [d[k] = v]: an existing binding is updated where it stands, a new one is
    appended. *)
Fixpoint dict_set {V : Type} (k : string) (v : V) (d : dict V) : dict V :=
  match d with
  | [] => [(k, v)]
  | (k', v') :: d' =>
      if String.eqb k k' then (k', v) :: d' else (k', v') :: dict_set k v d'
  end.

(** [d.keys()] *)
Definition dict_keys {V : Type} (d : dict V) : list string := map fst d.

(* ================================================================= *)
(** ** Host language: values and exceptions *)

Definition float : Set := PrimFloat.float.

(** A run-time value: [None], the four members of [OptionValue], or any
    other object. *)
Inductive Value : Type :=
| VNone
| VBool (b : bool)
| VInt (z : Z)
| VFloat (f : float)
| VStr (s : string)
| VObject (id : nat).

(** [value is None] *)
Definition is_None (v : Value) : bool :=
  match v with
  | VNone => true
  | _ => false
  end.

(** Exceptions: those of the host that this code raises or lets through,
    and the classes of [errors.py]. *)
Inductive Exception : Type :=
| ValueError (args : list Value)
| OverflowError (args : list Value)
| KeyError (key : string)
| AssertionError
| ImportError (msg : string)
| InternalError (msg : string)
| ConfigurationError (msg : string)
| OptionRequiredError (msg : string).

(** [isinstance(e, ConfigurationError)]: [OptionRequiredError] is a subclass
    of [ConfigurationError]. *)
Definition is_ConfigurationError (e : Exception) : bool :=
  match e with
  | ConfigurationError _ | OptionRequiredError _ => true
  | _ => false
  end.

(** [isinstance(e, ExtensibleError)] *)
Definition is_ExtensibleError (e : Exception) : bool :=
  match e with
  | InternalError _ | ConfigurationError _ | OptionRequiredError _ => true
  | _ => false
  end.

Definition result (A : Type) : Type := (Exception + A)%type.
Definition Ok {A : Type} (a : A) : result A := inr a.
Definition raise {A : Type} (e : Exception) : result A := inl e.

Definition bind {A B : Type} (m : result A) (k : A -> result B) : result B :=
  match m with
  | inl e => inl e
  | inr a => k a
  end.

Notation "x <- m ;; k" := (bind m (fun x => k))
  (at level 61, m at next level, right associativity).

(** [bool(z)] for an [int] *)
Definition bool_of_int (z : Z) : bool := negb (z =? 0)%Z.

(** [bool(f)] for a [float]: [f != 0.0] under IEEE 754 comparison. *)
Definition bool_of_float (f : float) : bool :=
  negb (PrimFloat.eqb f PrimFloat.zero).

(** The conversions of the host language that the coercions call. *)
Class Builtins : Type := {
  int_of_str : string -> result Z;        (* int(s) *)
  int_of_float : float -> result Z;       (* int(f) *)
  float_of_str : string -> result float;  (* float(s) *)
  float_of_int : Z -> result float;       (* float(z) *)
  str_of_int : Z -> result string;        (* str(z) *)
  str_of_float : float -> result string   (* str(f) *)
}.

(* ================================================================= *)
(** ** options.py *)

(** [class OptionType(Enum)] *)
Inductive OptionType : Set :=
| OptionType_str
| OptionType_int
| OptionType_bool
| OptionType_float.

(** [class Option] *)
Module Option.

Record t : Type := {
  name : string;
  default : Value;            (* [VNone] when there is no default *)
  type : OptionType;
  desc : option string;
  label : string;
  is_required : bool
}.

(** [Option.__init__].  [type or OptionType.str]: every member of a plain
    [Enum] is truthy, so only [None] is replaced.  [label or name]: [None]
    and the empty string are falsy. *)
Definition __init__ (name : string) (type : option OptionType)
    (default : Value) (desc : option string) (label : option string)
    (is_required : bool) : t :=
  {| name := name;
     default := default;
     type := match type with
             | Some ty => ty
             | None => OptionType_str
             end;
     desc := desc;
     label := match label with
              | Some EmptyString | None => name
              | Some l => l
              end;
     is_required := is_required |}.

End Option.

Definition TRUE_VALUES : list string := ["1"; "true"; "yes"; "on"].
Definition FALSE_VALUES : list string := ["0"; "false"; "no"; "off"].

(** [value_to_bool] *)
Definition value_to_bool (value : Value) : result (option bool) :=
  match value with
  | VNone => Ok None
  | VBool b => Ok (Some b)
  | VInt z => Ok (Some (bool_of_int z))
  | VFloat f => Ok (Some (bool_of_float f))
  | VStr s =>
      if str_in s TRUE_VALUES then Ok (Some true)
      else if str_in s FALSE_VALUES then Ok (Some false)
      else raise (ValueError [])
  | VObject _ => raise (ValueError [])
  end.

Section Coercions.

Context {host : Builtins}.

(** [value_to_int] *)
Definition value_to_int (value : Value) : result (option Z) :=
  match value with
  | VNone => Ok None
  | VBool b => Ok (Some (if b then 1 else 0)%Z)
  | VInt z => Ok (Some z)
  | VStr s => z <- int_of_str s ;; Ok (Some z)
  | VFloat f => z <- int_of_float f ;; Ok (Some z)
  | VObject _ => raise (ValueError [value])
  end.

(** [value_to_float] *)
Definition value_to_float (value : Value) : result (option float) :=
  match value with
  | VNone => Ok None
  | VBool b => Ok (Some (if b then PrimFloat.one else PrimFloat.zero))
  | VInt z => f <- float_of_int z ;; Ok (Some f)
  | VFloat f => Ok (Some f)
  | VStr s => f <- float_of_str s ;; Ok (Some f)
  | VObject _ => raise (ValueError [])
  end.

(** [value_to_string] *)
Definition value_to_string (value : Value) : result (option string) :=
  match value with
  | VNone => Ok None
  | VBool b => Ok (Some (if b then "true" else "false"))
  | VStr s => Ok (Some s)
  | VInt z => s <- str_of_int z ;; Ok (Some s)
  | VFloat f => s <- str_of_float f ;; Ok (Some s)
  | VObject _ => raise (ValueError [])
  end.

(** An [Optional[...]] result seen as a run-time value again. *)
Definition of_optional {A : Type} (inj : A -> Value) (o : option A) : Value :=
  match o with
  | Some a => inj a
  | None => VNone
  end.

(** [cast_option_value].  The final [else] of the source (an option type
    outside the enumeration) has no counterpart: [OptionType] is closed. *)
Definition cast_option_value (value : Value) (option : Option.t)
    : result Value :=
  match Option.type option with
  | OptionType_str => r <- value_to_string value ;; Ok (of_optional VStr r)
  | OptionType_int => r <- value_to_int value ;; Ok (of_optional VInt r)
  | OptionType_float => r <- value_to_float value ;; Ok (of_optional VFloat r)
  | OptionType_bool => r <- value_to_bool value ;; Ok (of_optional VBool r)
  end.

End Coercions.

(** [class OptionDict] *)
Module OptionDict.

Record t : Type := {
  _dict : dict Value;
  _options : dict Option.t
}.

(** [keymap = dict((key.lower(), key) for key in mapping)] *)
Definition build_keymap (mapping : dict Value) : dict string :=
  fold_left (fun keymap key => dict_set (lower key) key keymap)
            (dict_keys mapping) [].

(** The [for option in options] loop of [__init__], from the state [self]
    reached so far. *)
Fixpoint init_loop (mapping : dict Value) (keymap : dict string)
    (options : list Option.t) (self : t) : result t :=
  match options with
  | [] => Ok self
  | option :: rest =>
      let name := lower (Option.name option) in
      let key := dict_get name keymap in
      let self := {| _dict := _dict self;
                     _options := dict_set name option (_options self) |} in
      match key with
      | Some key =>
          match dict_get key mapping with
          | Some v =>
              init_loop mapping keymap rest
                {| _dict := dict_set name v (_dict self);
                   _options := _options self |}
          | None => raise (KeyError key)
          end
      | None =>
          if Option.is_required option then raise (OptionRequiredError name)
          else if negb (is_None (Option.default option)) then
            init_loop mapping keymap rest
              {| _dict := dict_set name (Option.default option) (_dict self);
                 _options := _options self |}
          else init_loop mapping keymap rest self
      end
  end.

(** [set(mapping.keys()) - set(self._dict.keys())] *)
Definition extra_keys (mapping : dict Value) (self : t) : list string :=
  set_diff (set_of (dict_keys mapping)) (set_of (dict_keys (_dict self))).

(** [OptionDict.__init__(mapping, options)]: the constructed object, or
    the exception that leaves none. *)
Definition __init__ (mapping : dict Value) (options : list Option.t)
    : result t :=
  self <- init_loop mapping (build_keymap mapping) options
            {| _dict := []; _options := [] |} ;;
  let extra := extra_keys mapping self in
  match extra with
  | [] => Ok self
  | _ :: _ =>
      raise (ConfigurationError
               ("Unknown options: " ++ join ", " (sorted extra)))
  end.

(** [__getitem__] *)
Definition __getitem__ (self : t) (key : string) : result Value :=
  match dict_get (lower key) (_dict self) with
  | Some v => Ok v
  | None => raise (KeyError (lower key))
  end.

(** [__setitem__]: the object after the call, and the outcome. *)
Definition __setitem__ (self : t) (key : string) (value : Value)
    : t * result unit :=
  (self, raise (InternalError "OptionDictionary is immutable")).

(** [__len__] *)
Definition __len__ (self : t) : nat := List.length (_dict self).

(** [__iter__] *)
Definition __iter__ (self : t) : list string := dict_keys (_dict self).

(** [get(option, default)] *)
Definition get (self : t) (option : string) (default : Value) : Value :=
  match dict_get (lower option) (_dict self) with
  | Some v => v
  | None => default
  end.

Section Typed.

Context {host : Builtins}.

(** [getstr] *)
Definition getstr (self : t) (option : string) (default : Value)
    : result (Datatypes.option string) :=
  let value := get self option default in
  if is_None value then Ok None else value_to_string value.

(** [getint] *)
Definition getint (self : t) (option : string) (default : Value)
    : result (Datatypes.option Z) :=
  let value := get self option default in
  if is_None value then Ok None else value_to_int value.

(** [getfloat] *)
Definition getfloat (self : t) (option : string) (default : Value)
    : result (Datatypes.option float) :=
  let value := get self option default in
  if is_None value then Ok None else value_to_float value.

(** [getbool] *)
Definition getbool (self : t) (option : string) (default : Value)
    : result (Datatypes.option bool) :=
  let value := get self option default in
  if is_None value then Ok None else value_to_bool value.

(** The [for key in self._dict.keys()] loop of [casted], from the
    mapping [retval] built so far. *)
Fixpoint casted_loop (self : t) (keys : list string) (retval : dict Value)
    : result (dict Value) :=
  match keys with
  | [] => Ok retval
  | key :: rest =>
      match dict_get key (_options self) with
      | None => raise (KeyError key)
      | Some option =>
          v <- cast_option_value (get self key VNone) option ;;
          casted_loop self rest (dict_set key v retval)
      end
  end.

(** [casted()] *)
Definition casted (self : t) : result (dict Value) :=
  casted_loop self (dict_keys (_dict self)) [].

End Typed.

End OptionDict.

(* ================================================================= *)
(** ** extensible.py: [class ExtensionDescription] *)

Module ExtensionDescription.

Record t : Type := {
  type : string;
  name : string;
  label : string;
  doc : string;
  options : list Option.t
}.

End ExtensionDescription.

(* ================================================================= *)
(** ** extensible.py: [class ExtensionRegistry] *)

Module ExtensionRegistry.

Section Registry.

(** Class objects, and [issubclass(c, Extensible)]. *)
Context {Class : Type}.
Variable issubclass_Extensible : Class -> bool.

Record t : Type := {
  name : string;
  classes : dict Class;
  modules : dict string
}.

(** [ExtensionRegistry.__init__] *)
Definition __init__ (name : string) : t :=
  {| name := name; classes := []; modules := [] |}.

(** Assignment to the attribute [self.classes], resp. [self.modules]. *)
Definition with_classes (self : t) (classes' : dict Class) : t :=
  {| name := self.(name); classes := classes';
     modules := self.(modules) |}.

Definition with_modules (self : t) (modules' : dict string) : t :=
  {| name := self.(name); classes := self.(classes);
     modules := modules' |}.

(** [register]: the catalog after the call, and the outcome. *)
Definition register (self : t) (name : string) (extension : Class)
    : t * result unit :=
  if issubclass_Extensible extension then
    (with_classes self (dict_set name extension self.(classes)), Ok tt)
  else (self, raise AssertionError).

(** [register_lazy] *)
Definition register_lazy (self : t) (name : string) (module : string)
    : t :=
  with_modules self (dict_set name module self.(modules)).

(** [registered_names] *)
Definition registered_names (self : t) : list string :=
  sorted (set_union (set_of (dict_keys self.(classes)))
                    (set_of (dict_keys self.(modules)))).

(** What a catalog lives in: the rest of the process ([host]: loaded
    modules, other catalogs), the catalog itself, and the calls of
    [import_module] made so far, oldest first. *)
Context {Host : Type}.

Record World : Type := {
  host : Host;
  registry : t;
  imported : list string
}.

(** [importlib.import_module(m)]: running a module may change the process
    and, through the process-wide table of catalogs, this catalog; it
    ends normally or with an exception. *)
Variable import_module :
  string -> Host * t -> (Host * t) * option Exception.

(** The guarded [import_module(self.modules[name])] that opens
    [extension]. *)
Definition load_if_lazy (name : string) (w : World)
    : World * option Exception :=
  let self := w.(registry) in
  if negb (dict_contains name self.(classes))
     && dict_contains name self.(modules)
  then
    match dict_get name self.(modules) with
    | Some module =>
        let '((h, self'), exc) := import_module module (w.(host), self) in
        ({| host := h; registry := self';
            imported := w.(imported) ++ [module] |}, exc)
    | None => (w, Some (KeyError name))
    end
  else (w, None).

(** The exception of the [except KeyError] clause of [extension]:
    [InternalError(f"Unknown extension '{name}' of type '{self.name}'")]. *)
Definition unknown_extension (self : t) (extension_name : string)
    : Exception :=
  InternalError ("Unknown extension '" ++ extension_name ++ "' "
                 ++ "of type '" ++ self.(name) ++ "'").

(** [extension(name)]: the world after the call, and the class found or
    the exception raised. *)
Definition extension (name : string) (w : World) : World * result Class :=
  match load_if_lazy name w with
  | (w', Some exc) => (w', raise exc)
  | (w', None) =>
      let self := w'.(registry) in
      match dict_get name self.(classes) with
      | Some extension => (w', Ok extension)
      | None =>
          (w', raise (unknown_extension self name))
      end
  end.

(** The attributes of a class object that [describe] reads: [extension_desc],
    [__doc__], [extension_label] and [extension_options]. *)
Variable extension_desc : Class -> option string.
Variable class_doc : Class -> option string.
Variable extension_label : Class -> option string.
Variable extension_options : Class -> list Option.t.

(** [a or b] for an optional string [a]: [None] and the empty string are
    falsy. *)
Definition str_or (a : option string) (b : string) : string :=
  match a with
  | Some EmptyString | None => b
  | Some s => s
  end.

(** The [ExtensionDescription(...)] that [describe] builds from the class
    found. *)
Definition description_of (self : t) (extension_name : string) (ext : Class)
    : ExtensionDescription.t :=
  let doc :=
    str_or (extension_desc ext) (str_or (class_doc ext) "(No documentation)") in
  {| ExtensionDescription.type := self.(name);
     ExtensionDescription.name := extension_name;
     ExtensionDescription.label := str_or (extension_label ext) extension_name;
     ExtensionDescription.doc := doc;
     ExtensionDescription.options :=
       match extension_options ext with
       | [] => []
       | (_ :: _) as options => options
       end |}.

(** [describe(name)] *)
Definition describe (name : string) (w : World)
    : World * result ExtensionDescription.t :=
  match extension name w with
  | (w', inl exc) => (w', raise exc)
  | (w', inr ext) => (w', Ok (description_of w'.(registry) name ext))
  end.

End Registry.

Arguments t : clear implicits.
Arguments World : clear implicits.
Arguments description_of {Class} extension_desc class_doc extension_label
  extension_options self extension_name ext.

End ExtensionRegistry.

(* ================================================================= *)
(** ** extensible.py: the table of catalogs and [class Extensible] *)

(** A class object deriving from [Extensible]: its name and the attributes
    that the package reads ([extension_type] and [extension_name] are those
    the annotations of [Extensible] declare). *)
Module Extensible.

Record cls : Type := {
  __name__ : string;
  __doc__ : option string;
  extension_type : string;
  extension_name : string;
  extension_options : list Option.t;
  extension_desc : option string;
  extension_label : option string
}.

(** The class attribute [ExtensionRegistry._global_registries].  The package
    writes it in [registry] only, under a key that is absent, so the catalog
    under a key stays one object: a catalog is identified by its key, and a
    change of that object is a change of the entry. *)
Definition registries : Type := dict (ExtensionRegistry.t cls).

(** [ExtensionRegistry.registry(name)]: the table after the call, and the
    catalog returned. *)
Definition registry (name : string) (table : registries)
    : registries * ExtensionRegistry.t cls :=
  let table' :=
    if negb (dict_contains name table)
    then dict_set name (ExtensionRegistry.__init__ name) table
    else table in
  match dict_get name table' with
  | Some r => (table', r)
  | None => (table', ExtensionRegistry.__init__ name)
  end.

(** [issubclass(c, Extensible)] on the class objects of this model. *)
Definition issubclass_Extensible (c : cls) : bool := true.

(** [Extensible.__init_subclass__(cls, is_base)], run when the class [c] is
    defined: the table after the call, and the outcome. *)
Definition __init_subclass__ (c : cls) (is_base : bool) (table : registries)
    : registries * result unit :=
  let '(table', registry) := registry (extension_type c) table in
  if negb is_base then
    let '(registry', outcome) :=
      ExtensionRegistry.register issubclass_Extensible registry
        (extension_name c) c in
    (dict_set (extension_type c) registry' table', outcome)
  else (table', Ok tt).

Section Process.

(** The process outside the table of catalogs, and
    [importlib.import_module]: running a module may change the process and
    the table. *)
Context {Host : Type}.
Variable import_module :
  string -> Host * registries -> (Host * registries) * option Exception.

Record Process : Type := {
  host : Host;
  _global_registries : registries;
  imported : list string
}.

(** [import_module] as the catalog under [key] sees it: where the module
    starts, the entry of [key] is the state of that catalog; where it ends,
    the catalog is in the state of its entry. *)
Definition import_for (key : string) (module : string)
    (st : (Host * registries) * ExtensionRegistry.t cls)
    : ((Host * registries) * ExtensionRegistry.t cls) * option Exception :=
  let '((h, table), self) := st in
  let '((h', table'), exc) := import_module module (h, dict_set key self table) in
  (((h', table'),
    match dict_get key table' with
    | Some self' => self'
    | None => self
    end), exc).

(** [concrete_extension(name)], called on the class [c]. *)
Definition concrete_extension (c : cls) (name : string) (p : Process)
    : Process * result cls :=
  let '(table, registry) := registry (extension_type c) (_global_registries p) in
  let '(w, outcome) :=
    ExtensionRegistry.extension (import_for (extension_type c)) name
      {| ExtensionRegistry.host := (host p, table);
         ExtensionRegistry.registry := registry;
         ExtensionRegistry.imported := imported p |} in
  ({| host := fst (ExtensionRegistry.host w);
      _global_registries := snd (ExtensionRegistry.host w);
      imported := ExtensionRegistry.imported w |}, outcome).

(** Instances, and the call of a class with the keyword arguments
    [kwargs]: the constructor is code of the extension. *)
Context {Instance : Type}.
Variable construct : cls -> dict Value -> result Instance.

Context {builtins : Builtins}.

(** [create_with_options(options)], called on the class [c]. *)
Definition create_with_options (c : cls) (options : OptionDict.t)
    : result Instance :=
  kwargs <- OptionDict.casted options ;;
  construct c kwargs.

(** [create_with_dict(mapping)], called on the class [c]. *)
Definition create_with_dict (c : cls) (mapping : dict Value)
    : result Instance :=
  options <- OptionDict.__init__ mapping (extension_options c) ;;
  create_with_options c options.

End Process.

Arguments Process : clear implicits.

(** [describe(name)] on a catalog of these class objects. *)
Definition describe {Host : Type}
    (import_module :
       string -> Host * ExtensionRegistry.t cls ->
       (Host * ExtensionRegistry.t cls) * option Exception) :=
  ExtensionRegistry.describe import_module
    extension_desc __doc__ extension_label extension_options.

End Extensible.

(* ================================================================= *)
(** ** The conversions of CPython on ASCII text *)

(** An instance of [Builtins] to run the code with: [int], [float] and
    [str] as CPython 3 computes them on ASCII strings, arbitrary-precision
    integers and IEEE 754 binary64 floats (without the limit that recent
    interpreters put on the number of digits of an integer). *)
Module CPython.

Local Open Scope Z_scope.

Definition code (c : ascii) : Z := Z.of_N (N_of_ascii c).

Definition is_digit (c : ascii) : bool :=
  (48 <=? code c) && (code c <=? 57).

(** [Py_ISSPACE]: tab, line feed, vertical tab, form feed, carriage
    return, space. *)
Definition is_space (c : ascii) : bool :=
  ((9 <=? code c) && (code c <=? 13)) || (code c =? 32).

Fixpoint lstrip (l : list ascii) : list ascii :=
  match l with
  | c :: l' => if is_space c then lstrip l' else l
  | [] => []
  end.

Definition strip (l : list ascii) : list ascii :=
  rev (lstrip (rev (lstrip l))).

(** Underscores may only stand between two digits; they are dropped. *)
Fixpoint drop_underscores (prev_digit prev_underscore : bool)
    (l : list ascii) : option (list ascii) :=
  match l with
  | [] => if prev_underscore then None else Some []
  | c :: l' =>
      if Ascii.eqb c "_" then
        if prev_digit then drop_underscores false true l' else None
      else if prev_underscore && negb (is_digit c) then None
      else option_map (cons c) (drop_underscores (is_digit c) false l')
  end.

(** The value of a run of decimal digits, most significant first. *)
Definition Z_of_digits (l : list ascii) : Z :=
  fold_left (fun acc c => 10 * acc + (code c - 48)) l 0.

(** An optional sign: whether it is "-", and what follows it. *)
Definition split_sign (l : list ascii) : bool * list ascii :=
  match l with
  | c :: l' =>
      if Ascii.eqb c "-" then (true, l')
      else if Ascii.eqb c "+" then (false, l')
      else (false, l)
  | [] => (false, [])
  end.

(** The longest prefix of digits, and the rest. *)
Fixpoint span_digits (l : list ascii) : list ascii * list ascii :=
  match l with
  | c :: l' =>
      if is_digit c then
        let (ds, rest) := span_digits l' in (c :: ds, rest)
      else ([], l)
  | [] => ([], [])
  end.

Definition hex_digit (n : Z) : ascii :=
  ascii_of_N (Z.to_N (if n <? 10 then 48 + n else 87 + n)).

Definition double_quote : ascii := ascii_of_nat 34.

(** [repr(s)] of a string: one character, then the whole. *)
Definition repr_char (quote : ascii) (c : ascii) : list ascii :=
  let n := code c in
  if Ascii.eqb c quote || Ascii.eqb c "\" then ["\"%char; c]
  else if n =? 9 then ["\"; "t"]%char
  else if n =? 10 then ["\"; "n"]%char
  else if n =? 13 then ["\"; "r"]%char
  else if (n <? 32) || (127 <=? n) then
    ["\"%char; "x"%char; hex_digit (n / 16); hex_digit (n mod 16)]
  else [c].

Definition repr_str (s : string) : string :=
  let l := list_ascii_of_string s in
  let quote :=
    if existsb (Ascii.eqb "'") l && negb (existsb (Ascii.eqb double_quote) l)
    then double_quote else "'"%char in
  string_of_list_ascii (quote :: flat_map (repr_char quote) l ++ [quote]).

(** [int(s)] *)
Definition int_of_str (s : string) : result Z :=
  let invalid :=
    raise (ValueError
             [VStr ("invalid literal for int() with base 10: "
                    ++ String.substring 0 200 (repr_str s))]) in
  match drop_underscores false false (strip (list_ascii_of_string s)) with
  | None => invalid
  | Some l =>
      let (negative, l) := split_sign l in
      match l with
      | [] => invalid
      | _ :: _ =>
          if forallb is_digit l then
            Ok (if negative then - Z_of_digits l else Z_of_digits l)
          else invalid
      end
  end.

(** The decimal digits of a natural number, most significant first. *)
Definition digits_of_Z (z : Z) : list ascii :=
  list_ascii_of_string (NilZero.string_of_uint (N.to_uint (Z.to_N z))).

(** [str(z)] *)
Definition str_of_int (z : Z) : result string :=
  Ok (string_of_list_ascii
        ((if z <? 0 then ["-"%char] else []) ++ digits_of_Z (Z.abs z))).

(** [int(f)]: truncation towards zero. *)
Definition int_of_float (f : float) : result Z :=
  match FloatOps.Prim2SF f with
  | SpecFloat.S754_zero _ => Ok 0
  | SpecFloat.S754_finite s m e =>
      let v := if 0 <=? e then Z.shiftl (Zpos m) e else Z.shiftr (Zpos m) (- e) in
      Ok (if s then - v else v)
  | SpecFloat.S754_infinity _ =>
      raise (OverflowError [VStr "cannot convert float infinity to integer"])
  | SpecFloat.S754_nan =>
      raise (ValueError [VStr "cannot convert float NaN to integer"])
  end.

(** The float nearest to [num / den] (ties to even), for [den > 0]. *)
Definition nearest (negative : bool) (num den : Z) : SpecFloat.spec_float :=
  if num =? 0 then SpecFloat.S754_zero negative
  else
    let t := Z.max 0 (64 + Z.log2_up den - Z.log2 num) in
    let (q, r) := Z.div_eucl (Z.shiftl num t) den in
    let m := 2 * q + (if r =? 0 then 0 else 1) in
    SpecFloat.binary_normalize FloatOps.prec FloatOps.emax
      (if negative then - m else m) (- t - 1) negative.

(** [float(z)] *)
Definition float_of_int (z : Z) : result float :=
  match nearest (z <? 0) (Z.abs z) 1 with
  | SpecFloat.S754_infinity _ =>
      raise (OverflowError [VStr "int too large to convert to float"])
  | x => Ok (FloatOps.SF2Prim x)
  end.

(** The float nearest to [d * 10^e]. *)
Definition nearest_decimal (negative : bool) (d e : Z) : SpecFloat.spec_float :=
  if 0 <=? e then nearest negative (d * 10 ^ e) 1
  else nearest negative d (10 ^ (- e)).

(** A decimal literal without sign: digits, an optional fraction, an
    optional exponent; at least one digit before the exponent.  The
    result is the pair [(d, e)] of the value [d * 10^e]. *)
Definition parse_decimal (l : list ascii) : option (Z * Z) :=
  let (int_part, rest) := span_digits l in
  let (frac_part, rest) :=
    match rest with
    | c :: rest' => if Ascii.eqb c "." then span_digits rest' else ([], rest)
    | [] => ([], [])
    end in
  match (int_part ++ frac_part)%list with
  | [] => None
  | mantissa =>
      let d := Z_of_digits mantissa in
      let e := - Z.of_nat (List.length frac_part) in
      match rest with
      | [] => Some (d, e)
      | c :: rest' =>
          if Ascii.eqb c "e" || Ascii.eqb c "E" then
            let (negative, ds) := split_sign rest' in
            match ds with
            | [] => None
            | _ :: _ =>
                if forallb is_digit ds then
                  Some (d, e + (if negative then - Z_of_digits ds
                                else Z_of_digits ds))
                else None
            end
          else None
      end
  end.

(** [float(s)] *)
Definition float_of_str (s : string) : result float :=
  let invalid :=
    raise (ValueError
             [VStr ("could not convert string to float: " ++ repr_str s)]) in
  match drop_underscores false false (strip (list_ascii_of_string s)) with
  | None => invalid
  | Some l =>
      let (negative, body) := split_sign l in
      let word := lower (string_of_list_ascii body) in
      if String.eqb word "inf" || String.eqb word "infinity" then
        Ok (FloatOps.SF2Prim (SpecFloat.S754_infinity negative))
      else if String.eqb word "nan" then Ok PrimFloat.nan
      else
        match parse_decimal body with
        | Some (d, e) => Ok (FloatOps.SF2Prim (nearest_decimal negative d e))
        | None => invalid
        end
  end.

Definition SF_eqb (x y : SpecFloat.spec_float) : bool :=
  match x, y with
  | SpecFloat.S754_finite s m e, SpecFloat.S754_finite s' m' e' =>
      Bool.eqb s s' && Pos.eqb m m' && (e =? e')
  | _, _ => false
  end.

(** The decimal exponent [x] of [num / den]: [10^x <= num/den < 10^(x+1)]. *)
Definition reaches (num den x : Z) : bool :=
  if 0 <=? x then den * 10 ^ x <=? num else den <=? num * 10 ^ (- x).

Fixpoint decimal_exponent_from (fuel : nat) (num den x : Z) : Z :=
  match fuel with
  | O => x
  | S fuel' =>
      if reaches num den x then x
      else decimal_exponent_from fuel' num den (x - 1)
  end.

Definition decimal_exponent (num den : Z) : Z :=
  decimal_exponent_from 8 num den
    (((Z.log2 num - Z.log2 den) * 30103) / 100000 + 2).

(** The integer [c] of at most [n] digits ([10^n] included) such that
    [c * 10^(x - n + 1)] reads back as the float, nearest to it if there
    are two; [None] if there is none. *)
Definition shortest_at (target : SpecFloat.spec_float) (num den x n : Z)
    : option Z :=
  let k := n - 1 - x in
  let (num', den') :=
    if 0 <=? k then (num * 10 ^ k, den) else (num, den * 10 ^ (- k)) in
  let (lo, r) := Z.div_eucl num' den' in
  let reads_back c := SF_eqb (nearest_decimal false c (- k)) target in
  if r =? 0 then (if reads_back lo then Some lo else None)
  else
    let hi := lo + 1 in
    match reads_back lo, reads_back hi with
    | true, true =>
        Some (match 2 * r ?= den' with
              | Lt => lo
              | Gt => hi
              | Eq => if Z.even lo then lo else hi
              end)
    | true, false => Some lo
    | false, true => Some hi
    | false, false => None
    end.

Fixpoint shortest_from (fuel : nat) (target : SpecFloat.spec_float)
    (num den x n : Z) : Z * Z :=
  match fuel with
  | O => (0, n)
  | S fuel' =>
      match shortest_at target num den x n with
      | Some c => (c, n)
      | None => shortest_from fuel' target num den x (n + 1)
      end
  end.

Fixpoint strip_zeros (l : list ascii) : list ascii :=
  match l with
  | c :: l' => if Ascii.eqb c "0" then strip_zeros l' else l
  | [] => []
  end.

Definition zeros (n : Z) : list ascii := repeat "0"%char (Z.to_nat n).

(** Digits [ds] with the decimal point after the first [decpt] of them,
    laid out as [repr] does. *)
Definition layout (ds : list ascii) (decpt : Z) : list ascii :=
  let n := Z.of_nat (List.length ds) in
  if (-4 <? decpt) && (decpt <=? 16) then
    if decpt <=? 0 then ("0" :: "." :: zeros (- decpt))%char ++ ds
    else if decpt <? n then
      firstn (Z.to_nat decpt) ds ++ "."%char :: skipn (Z.to_nat decpt) ds
    else ds ++ zeros (decpt - n) ++ ["."; "0"]%char
  else
    let e := decpt - 1 in
    let es := digits_of_Z (Z.abs e) in
    firstn 1 ds
    ++ match skipn 1 ds with
       | [] => []
       | rest => "."%char :: rest
       end
    ++ "e"%char :: (if e <? 0 then "-"%char else "+"%char)
       :: (if Z.abs e <? 10 then "0"%char :: es else es).

(** [str(f)]: the shortest decimal text that reads back as [f]. *)
Definition str_of_float (f : float) : result string :=
  Ok (match FloatOps.Prim2SF f with
      | SpecFloat.S754_nan => "nan"%string
      | SpecFloat.S754_infinity s => (if s then "-inf" else "inf")%string
      | SpecFloat.S754_zero s => (if s then "-0.0" else "0.0")%string
      | SpecFloat.S754_finite s m e =>
          let (num, den) :=
            if 0 <=? e then (Z.shiftl (Zpos m) e, 1)
            else (Zpos m, Z.shiftl 1 (- e)) in
          let x := decimal_exponent num den in
          let (c, n) :=
            shortest_from 17 (SpecFloat.S754_finite false m e) num den x 1 in
          let ds := digits_of_Z c in
          let decpt := Z.of_nat (List.length ds) + (x - n + 1) in
          string_of_list_ascii
            ((if s then ["-"%char] else [])
             ++ layout (rev (strip_zeros (rev ds))) decpt)
      end).

Definition host : Builtins :=
  Build_Builtins int_of_str int_of_float float_of_str float_of_int
    str_of_int str_of_float.

End CPython.

(* ================================================================= *)
(** ** A small process to run the registry in *)

Module Example.

(** Classes are identified by their names; all of them derive from
    [Extensible]. *)
Definition Class : Type := string.
Definition issubclass_Extensible (c : Class) : bool := true.

(** Module "printers.pretty2" registers the class [Pretty2Printer] under
    "pretty2" when it is run; module "printers.empty" registers nothing;
    no other module exists.  Nothing else of the process is tracked. *)
Definition import_module (module : string)
    (st : unit * ExtensionRegistry.t Class)
    : (unit * ExtensionRegistry.t Class) * option Exception :=
  if String.eqb module "printers.pretty2" then
    ((fst st,
      fst (ExtensionRegistry.register issubclass_Extensible (snd st)
             "pretty2" "Pretty2Printer")), None)
  else if String.eqb module "printers.empty" then (st, None)
  else (st, Some (ImportError ("No module named '" ++ module ++ "'"))).

(** The catalog of point "printer": "pretty" registered eagerly,
    "pretty2" and "ghost" registered lazily. *)
Definition printers : ExtensionRegistry.t Class :=
  ExtensionRegistry.register_lazy
    (ExtensionRegistry.register_lazy
       (fst (ExtensionRegistry.register issubclass_Extensible
               (ExtensionRegistry.__init__ "printer")
               "pretty" "PrettyPrinter"))
       "pretty2" "printers.pretty2")
    "ghost" "printers.empty".

Definition world (r : ExtensionRegistry.t Class)
    : ExtensionRegistry.World Class unit :=
  {| ExtensionRegistry.host := tt;
     ExtensionRegistry.registry := r;
     ExtensionRegistry.imported := [] |}.

Definition extension :=
  ExtensionRegistry.extension import_module.

End Example.

(* ================================================================= *)
(** ** A small program built on [Extensible] *)

Module Printers.

(** [class PrettyPrinter(Printer)], of point "printer", named "pretty",
    with the option [Option("indent", INT, default=4)]. *)
Definition PrettyPrinter : Extensible.cls :=
  {| Extensible.__name__ := "PrettyPrinter";
     Extensible.__doc__ := Some "Prints with indentation.";
     Extensible.extension_type := "printer";
     Extensible.extension_name := "pretty";
     Extensible.extension_options :=
       [Option.__init__ "indent" (Some OptionType_int) (VInt 4) None None false];
     Extensible.extension_desc := None;
     Extensible.extension_label := None |}.

(** [class PlainPrinter(Printer)], defined in the module "printers.plain". *)
Definition PlainPrinter : Extensible.cls :=
  {| Extensible.__name__ := "PlainPrinter";
     Extensible.__doc__ := None;
     Extensible.extension_type := "printer";
     Extensible.extension_name := "plain";
     Extensible.extension_options := [];
     Extensible.extension_desc := Some "Prints as is.";
     Extensible.extension_label := Some "Plain" |}.

(** Running "printers.plain" defines [PlainPrinter]; no other module
    exists. *)
Definition import_module (module : string)
    (st : unit * Extensible.registries)
    : (unit * Extensible.registries) * option Exception :=
  if String.eqb module "printers.plain" then
    ((fst st, fst (Extensible.__init_subclass__ PlainPrinter false (snd st))),
     None)
  else (st, Some (ImportError ("No module named '" ++ module ++ "'"))).

(** The table after [PrettyPrinter] has been defined. *)
Definition table : Extensible.registries :=
  fst (Extensible.__init_subclass__ PrettyPrinter false []).

Definition process : Extensible.Process unit :=
  {| Extensible.host := tt;
     Extensible._global_registries := table;
     Extensible.imported := [] |}.

(** An instance records its class and the keyword arguments it was built
    from. *)
Definition construct (c : Extensible.cls) (kwargs : dict Value)
    : result (string * dict Value) :=
  Ok (Extensible.__name__ c, kwargs).

(** [import_module] as the catalog "printer" sees it, that catalog, and
    the world it lives in. *)
Definition import_printer :=
  Extensible.import_for import_module "printer".

Definition catalog : ExtensionRegistry.t Extensible.cls :=
  snd (Extensible.registry "printer" table).

Definition world : ExtensionRegistry.World Extensible.cls (unit * Extensible.registries) :=
  {| ExtensionRegistry.host := (tt, table);
     ExtensionRegistry.registry := catalog;
     ExtensionRegistry.imported := [] |}.

End Printers.

(* ================================================================= *)
(** ** A sample schema and raw mapping *)

Module Sample.

(** [[Option("Name", STR), Option("indent", INT, default=4),
      Option("size", INT, is_required=True), Option("debug", BOOL)]] *)
Definition options : list Option.t :=
  [Option.__init__ "Name" (Some OptionType_str) VNone None None false;
   Option.__init__ "indent" (Some OptionType_int) (VInt 4) None None false;
   Option.__init__ "size" (Some OptionType_int) VNone None None true;
   Option.__init__ "debug" (Some OptionType_bool) VNone None None false].

(** [{"name": "abc", "size": "10"}] *)
Definition mapping : dict Value :=
  [("name", VStr "abc"); ("size", VStr "10")].

(** What [OptionDict(mapping, options)] holds. *)
Definition constructed : OptionDict.t :=
  {| OptionDict._dict :=
       [("name", VStr "abc"); ("indent", VInt 4); ("size", VStr "10")];
     OptionDict._options :=
       [("name", Option.__init__ "Name" (Some OptionType_str) VNone None None false);
        ("indent", Option.__init__ "indent" (Some OptionType_int) (VInt 4) None None false);
        ("size", Option.__init__ "size" (Some OptionType_int) VNone None None true);
        ("debug", Option.__init__ "debug" (Some OptionType_bool) VNone None None false)] |}.

End Sample.

(* ================================================================= *)
(** ** Vocabulary of the specification *)

(** The raw mapping supplies a value for the option: one of its keys
    equals the option's name up to case. *)
Definition supplied (mapping : dict Value) (o : Option.t) : Prop :=
  In (lower (Option.name o)) (map lower (dict_keys mapping)).

(** The lowercased names of the declared options, in schema order. *)
Definition declared_names (options : list Option.t) : list string :=
  map (fun o => lower (Option.name o)) options.

(** The key matches some declared option case-insensitively. *)
Definition declared (options : list Option.t) (key : string) : Prop :=
  In (lower key) (declared_names options).

(* ================================================================= *)
(** * Properties *)

(** ** Strings *)

Lemma ascii_lower_idem (c : ascii) : ascii_lower (ascii_lower c) = ascii_lower c.
Proof.
  destruct c as [[] [] [] [] [] [] [] []]; reflexivity.
Qed.

Lemma lower_idem (s : string) : lower (lower s) = lower s.
Proof.
  induction s as [|c s IH]; simpl.
  - reflexivity.
  - now rewrite ascii_lower_idem, IH.
Qed.

Lemma str_in_In (x : string) (l : list string) :
  str_in x l = true <-> In x l.
Proof.
  unfold str_in. rewrite existsb_exists. split.
  - intros (y & Hy & Heq). apply String.eqb_eq in Heq. now subst.
  - intros H. exists x. split; [assumption | apply String.eqb_refl].
Qed.

Lemma str_in_not_In (x : string) (l : list string) :
  str_in x l = false <-> ~ In x l.
Proof.
  rewrite <- str_in_In. destruct (str_in x l); split; congruence.
Qed.

Lemma str_le_false_lt (a b : string) : str_le a b = false -> str_lt b a.
Proof.
  unfold str_le, str_lt. destruct (String_as_OT.compare_spec a b); congruence.
Qed.

Lemma str_le_true_cases (a b : string) :
  str_le a b = true -> a = b \/ str_lt a b.
Proof.
  unfold str_le, str_lt.
  destruct (String_as_OT.compare_spec a b); auto; discriminate.
Qed.

Lemma str_lt_trans (a b c : string) : str_lt a b -> str_lt b c -> str_lt a c.
Proof. apply String_as_OT.lt_strorder. Qed.

Lemma str_lt_irrefl (a : string) : ~ str_lt a a.
Proof. apply String_as_OT.lt_strorder. Qed.

(** ** Sets and [sorted] *)

Lemma set_of_In (x : string) (l : list string) : In x (set_of l) <-> In x l.
Proof. apply nodup_In. Qed.

Lemma set_of_NoDup (l : list string) : NoDup (set_of l).
Proof. apply NoDup_nodup. Qed.

Lemma set_diff_In (x : string) (a b : list string) :
  In x (set_diff a b) <-> In x a /\ ~ In x b.
Proof.
  unfold set_diff. rewrite filter_In, negb_true_iff, str_in_not_In. tauto.
Qed.

Lemma set_diff_NoDup (a b : list string) : NoDup a -> NoDup (set_diff a b).
Proof. apply NoDup_filter. Qed.

Lemma set_union_In (x : string) (a b : list string) :
  In x (set_union a b) <-> In x a \/ In x b.
Proof. unfold set_union. rewrite nodup_In. apply in_app_iff. Qed.

Lemma set_union_NoDup (a b : list string) : NoDup (set_union a b).
Proof. apply NoDup_nodup. Qed.

Lemma insert_sorted_In (x y : string) (l : list string) :
  In y (insert_sorted x l) <-> y = x \/ In y l.
Proof.
  induction l as [|z l IH]; simpl.
  - intuition.
  - destruct (str_le x z); simpl; rewrite ?IH; intuition.
Qed.

Lemma sorted_In (x : string) (l : list string) : In x (sorted l) <-> In x l.
Proof.
  induction l as [|y l IH]; simpl.
  - tauto.
  - rewrite insert_sorted_In, IH. intuition.
Qed.

Lemma insert_sorted_strict (x : string) (l : list string) :
  StronglySorted str_lt l -> ~ In x l ->
  StronglySorted str_lt (insert_sorted x l).
Proof.
  induction l as [|y l IH]; simpl; intros Hs Hx.
  - repeat constructor.
  - apply StronglySorted_inv in Hs as [Hs Hy].
    destruct (str_le x y) eqn:Hle.
    + apply str_le_true_cases in Hle as [-> | Hlt]; [tauto |].
      constructor; [now constructor |].
      constructor; [assumption |].
      eapply Forall_impl; [| exact Hy].
      intros z Hz. now apply str_lt_trans with y.
    + apply str_le_false_lt in Hle.
      constructor; [apply IH; tauto |].
      apply Forall_forall. intros z Hz.
      apply insert_sorted_In in Hz as [-> | Hz]; [assumption |].
      rewrite Forall_forall in Hy. now apply Hy.
Qed.

(** On a duplicate-free list, [sorted] returns a strictly ascending list. *)
Lemma sorted_strict (l : list string) :
  NoDup l -> StronglySorted str_lt (sorted l).
Proof.
  induction 1 as [|x l Hx Hnd IH]; simpl.
  - constructor.
  - apply insert_sorted_strict; [assumption |].
    now rewrite sorted_In.
Qed.

(** A strictly ascending list is determined by its elements. *)
Lemma strict_sorted_ext (l1 l2 : list string) :
  StronglySorted str_lt l1 -> StronglySorted str_lt l2 ->
  (forall x, In x l1 <-> In x l2) -> l1 = l2.
Proof.
  revert l2. induction l1 as [|a l1 IH]; intros [|b l2] H1 H2 Hext.
  - reflexivity.
  - exfalso. apply (proj2 (Hext b)). now left.
  - exfalso. apply (proj1 (Hext a)). now left.
  - apply StronglySorted_inv in H1 as [H1 Ha].
    apply StronglySorted_inv in H2 as [H2 Hb].
    rewrite Forall_forall in Ha, Hb.
    assert (a = b) as ->.
    { destruct (proj1 (Hext a) (or_introl eq_refl)) as [E | Hin]; [now symmetry |].
      destruct (proj2 (Hext b) (or_introl eq_refl)) as [E | Hin']; [assumption |].
      exfalso. apply (str_lt_irrefl a).
      apply str_lt_trans with b; auto. }
    f_equal. apply IH; try assumption.
    intros x. split; intros Hx.
    + destruct (proj1 (Hext x) (or_intror Hx)) as [E | Hin]; [| assumption].
      subst x. exfalso. exact (str_lt_irrefl _ (Ha _ Hx)).
    + destruct (proj2 (Hext x) (or_intror Hx)) as [E | Hin]; [| assumption].
      subst x. exfalso. exact (str_lt_irrefl _ (Hb _ Hx)).
Qed.

(** The order in which a set hands its elements to [sorted] does not
    matter. *)
Lemma sorted_order_irrelevant (l l' : list string) :
  NoDup l -> Permutation l l' -> sorted l = sorted l'.
Proof.
  intros Hnd Hperm. apply strict_sorted_ext.
  - now apply sorted_strict.
  - apply sorted_strict. now apply Permutation_NoDup with l.
  - intros x. rewrite !sorted_In. split; intros Hx.
    + now apply Permutation_in with l.
    + apply Permutation_in with l'; [now apply Permutation_sym | assumption].
Qed.

(** ** Dictionaries *)

Lemma dict_get_In_keys {V : Type} (k : string) (d : dict V) :
  In k (dict_keys d) <-> exists v, dict_get k d = Some v.
Proof.
  induction d as [|[k' v'] d IH]; simpl.
  - split; [tauto | intros [v Hv]; discriminate].
  - destruct (String.eqb_spec k k') as [-> | Hne].
    + split; eauto.
    + rewrite <- IH. split; [intros [E | H]; [congruence | assumption] | auto].
Qed.

Lemma dict_get_None_keys {V : Type} (k : string) (d : dict V) :
  dict_get k d = None <-> ~ In k (dict_keys d).
Proof.
  rewrite dict_get_In_keys. destruct (dict_get k d) as [v|]; split.
  - discriminate.
  - intros H. exfalso. apply H. eauto.
  - intros _ [v Hv]. discriminate.
  - reflexivity.
Qed.

Lemma dict_contains_In {V : Type} (k : string) (d : dict V) :
  dict_contains k d = true <-> In k (dict_keys d).
Proof.
  unfold dict_contains. rewrite dict_get_In_keys.
  destruct (dict_get k d); split; eauto; try discriminate.
  intros [v Hv]. discriminate.
Qed.

Lemma dict_get_set_same {V : Type} (k : string) (v : V) (d : dict V) :
  dict_get k (dict_set k v d) = Some v.
Proof.
  induction d as [|[k' v'] d IH]; simpl.
  - now rewrite String.eqb_refl.
  - destruct (String.eqb_spec k k') as [-> | Hne]; simpl.
    + now rewrite String.eqb_refl.
    + destruct (String.eqb_spec k k'); [congruence | assumption].
Qed.

Lemma dict_get_set_other {V : Type} (k k' : string) (v : V) (d : dict V) :
  k <> k' -> dict_get k' (dict_set k v d) = dict_get k' d.
Proof.
  intros Hne. induction d as [|[k0 v0] d IH]; simpl.
  - destruct (String.eqb_spec k' k); [congruence | reflexivity].
  - destruct (String.eqb_spec k k0) as [-> | Hne0]; simpl.
    + destruct (String.eqb_spec k' k0); [congruence | reflexivity].
    + destruct (String.eqb_spec k' k0); [reflexivity | assumption].
Qed.

Lemma dict_keys_set {V : Type} (k x : string) (v : V) (d : dict V) :
  In x (dict_keys (dict_set k v d)) <-> x = k \/ In x (dict_keys d).
Proof.
  rewrite !dict_get_In_keys.
  destruct (string_dec k x) as [-> | Hne].
  - rewrite dict_get_set_same. split; eauto.
  - rewrite dict_get_set_other by assumption.
    split; [auto | intros [E | H]; [congruence | assumption]].
Qed.

(** [d[k] = v] keeps the keys of a dictionary distinct. *)
Lemma dict_set_NoDup {V : Type} (k : string) (v : V) (d : dict V) :
  NoDup (dict_keys d) -> NoDup (dict_keys (dict_set k v d)).
Proof.
  induction d as [|[k' v'] d IH]; simpl; intros Hnd.
  - repeat constructor. tauto.
  - apply NoDup_cons_iff in Hnd as [Hk' Hnd].
    destruct (String.eqb_spec k k') as [-> | Hne]; simpl.
    + now constructor.
    + constructor; [| now apply IH].
      fold (dict_keys (dict_set k v d)). rewrite dict_keys_set.
      intros [E | H]; [congruence | contradiction].
Qed.

(** ** Construction of an [OptionDict] *)

Section Construction.

Import OptionDict.

Variable mapping : dict Value.

Let keymap_from (keymap : dict string) (keys : list string) : dict string :=
  fold_left (fun keymap key => dict_set (lower key) key keymap) keys keymap.

Lemma keymap_from_keys (keys : list string) (keymap : dict string) (n : string) :
  In n (dict_keys (keymap_from keymap keys))
  <-> In n (dict_keys keymap) \/ In n (map lower keys).
Proof.
  revert keymap. induction keys as [|k keys IH]; intros keymap; simpl.
  - tauto.
  - rewrite IH, dict_keys_set. intuition.
Qed.

Lemma keymap_from_value (keys : list string) (keymap : dict string)
    (n key : string) :
  dict_get n (keymap_from keymap keys) = Some key ->
  dict_get n keymap = Some key \/ (In key keys /\ lower key = n).
Proof.
  revert keymap. induction keys as [|k keys IH]; intros keymap; simpl.
  - auto.
  - intros H. apply IH in H as [H | [Hin Hl]]; [| now auto].
    destruct (string_dec (lower k) n) as [<- | Hne].
    + rewrite dict_get_set_same in H. injection H as <-. auto.
    + rewrite dict_get_set_other in H by assumption. auto.
Qed.

(** [keymap.get(name)] is [None] exactly when no key of the mapping
    lowercases to [name]. *)
Lemma keymap_get_None (o : Option.t) :
  dict_get (lower (Option.name o)) (build_keymap mapping) = None
  <-> ~ supplied mapping o.
Proof.
  unfold build_keymap, supplied. rewrite dict_get_None_keys.
  fold (keymap_from [] (dict_keys mapping)).
  rewrite keymap_from_keys. simpl. tauto.
Qed.

(** A key found through [keymap] is a key of the mapping, so the
    subscription [mapping[key]] cannot raise. *)
Lemma keymap_get_Some (n key : string) :
  dict_get n (build_keymap mapping) = Some key ->
  lower key = n /\ exists v, dict_get key mapping = Some v.
Proof.
  unfold build_keymap. fold (keymap_from [] (dict_keys mapping)).
  intros H. apply keymap_from_value in H as [H | [Hin Hl]].
  - discriminate.
  - split; [assumption | now apply dict_get_In_keys].
Qed.

Let loop := init_loop mapping (build_keymap mapping).

Lemma init_loop_app (pre rest : list Option.t) (self : t) :
  loop (pre ++ rest)%list self = (s <- loop pre self ;; loop rest s).
Proof.
  unfold loop. revert self. induction pre as [|h pre IH]; intros self; simpl.
  - reflexivity.
  - destruct (dict_get (lower (Option.name h)) (build_keymap mapping)) as [key|].
    + destruct (dict_get key mapping); [apply IH | reflexivity].
    + destruct (Option.is_required h); [reflexivity |].
      destruct (negb (is_None (Option.default h))); apply IH.
Qed.

(** The loop stops at the first required option that is not supplied. *)
Lemma init_loop_required (options : list Option.t) (self : t) :
  (exists o, In o options /\ Option.is_required o = true
             /\ ~ supplied mapping o) ->
  exists pre o post,
    options = (pre ++ o :: post)%list
    /\ (forall p, In p pre -> Option.is_required p = true -> supplied mapping p)
    /\ Option.is_required o = true
    /\ ~ supplied mapping o
    /\ loop options self = raise (OptionRequiredError (lower (Option.name o))).
Proof.
  unfold loop. revert self. induction options as [|h options IH]; intros self (o & Hin & Hreq & Hmiss).
  - destruct Hin.
  - simpl.
    destruct (dict_get (lower (Option.name h)) (build_keymap mapping)) as [key|] eqn:Hkey.
    + assert (Hsup : supplied mapping h).
      { destruct (keymap_get_None h) as [_ Hn].
        destruct (in_dec string_dec (lower (Option.name h)) (map lower (dict_keys mapping)))
          as [Hs | Hs]; [exact Hs | rewrite (Hn Hs) in Hkey; discriminate]. }
      destruct (keymap_get_Some _ _ Hkey) as (_ & v & ->).
      destruct Hin as [-> | Hin]; [contradiction |].
      edestruct IH as (pre & o' & post & -> & Hpre & Hreq' & Hmiss' & Hrun);
        [now exists o |].
      exists (h :: pre), o', post. repeat split; try assumption.
      * intros p [<- | Hp] Hr; auto.
      * exact Hrun.
    + apply keymap_get_None in Hkey.
      destruct (Option.is_required h) eqn:Hh.
      * exists [], h, options. repeat split; auto. intros p [].
      * destruct Hin as [-> | Hin]; [congruence |].
        assert (Hex : exists o, In o options /\ Option.is_required o = true
                                /\ ~ supplied mapping o) by now exists o.
        destruct (negb (is_None (Option.default h)));
          (edestruct IH as (pre & o' & post & -> & Hpre & Hreq' & Hmiss' & Hrun);
             [exact Hex |];
           exists (h :: pre), o', post; repeat split; try assumption;
           [intros p [<- | Hp] Hr; [congruence | auto] | exact Hrun]).
Qed.

(** The loop raises nothing but [OptionRequiredError]; in particular
    [mapping[key]] never raises [KeyError]. *)
Lemma init_loop_cases (options : list Option.t) (self : t) :
  (exists self', loop options self = Ok self')
  \/ (exists n, loop options self = raise (OptionRequiredError n)).
Proof.
  unfold loop. revert self. induction options as [|h options IH]; intros self; simpl.
  - left. now exists self.
  - destruct (dict_get (lower (Option.name h)) (build_keymap mapping)) as [key|] eqn:Hkey.
    + destruct (keymap_get_Some _ _ Hkey) as (_ & v & ->). apply IH.
    + destruct (Option.is_required h); [right; eauto |].
      destruct (negb (is_None (Option.default h))); apply IH.
Qed.

(** Without a missing required option the loop runs to its end. *)
Lemma init_loop_Ok (options : list Option.t) (self : t) :
  (forall o, In o options -> Option.is_required o = true -> supplied mapping o) ->
  exists self', loop options self = Ok self'.
Proof.
  unfold loop. revert self.
  induction options as [|h options IH]; intros self Hall; simpl.
  - now exists self.
  - assert (Hrest : forall o, In o options -> Option.is_required o = true ->
                              supplied mapping o)
      by (intros; apply Hall; simpl; auto).
    destruct (dict_get (lower (Option.name h)) (build_keymap mapping)) as [key|] eqn:Hkey.
    + destruct (keymap_get_Some _ _ Hkey) as (_ & v & ->). now apply IH.
    + apply keymap_get_None in Hkey.
      destruct (Option.is_required h) eqn:Hh.
      * exfalso. apply Hkey, Hall; simpl; auto.
      * destruct (negb (is_None (Option.default h))); now apply IH.
Qed.

Lemma is_None_false (v : Value) : is_None v = false <-> v <> VNone.
Proof. destruct v; simpl; split; congruence. Qed.

(** The keys resolved by the loop: the lowercased names of the options
    that are supplied or carry a default. *)
Lemma init_loop_keys (options : list Option.t) (self self' : t) (n : string) :
  loop options self = Ok self' ->
  In n (dict_keys (_dict self'))
  <-> In n (dict_keys (_dict self))
      \/ exists o, In o options /\ lower (Option.name o) = n
                   /\ (supplied mapping o \/ Option.default o <> VNone).
Proof.
  unfold loop. revert self.
  induction options as [|h options IH]; intros self; simpl.
  - intros [= <-]. split; [auto | intros [H | (o & [] & _)]; exact H].
  - destruct (dict_get (lower (Option.name h)) (build_keymap mapping)) as [key|] eqn:Hkey.
    + assert (Hsup : supplied mapping h).
      { destruct (in_dec string_dec (lower (Option.name h)) (map lower (dict_keys mapping)))
          as [Hs | Hs]; [exact Hs |].
        apply keymap_get_None in Hs. congruence. }
      destruct (keymap_get_Some _ _ Hkey) as (_ & v & ->).
      intros Hrun. rewrite (IH _ Hrun). simpl. rewrite dict_keys_set.
      split.
      * intros [[-> | H] | (o & Ho & Hn & Hd)]; eauto 7.
      * intros [H | (o & [<- | Ho] & Hn & Hd)]; eauto 7.
    + apply keymap_get_None in Hkey.
      destruct (Option.is_required h); [discriminate |].
      destruct (is_None (Option.default h)) eqn:Hdef; simpl; intros Hrun;
        rewrite (IH _ Hrun); simpl.
      * split.
        -- intros [H | (o & Ho & Hn & Hd)]; eauto 7.
        -- intros [H | (o & [<- | Ho] & Hn & Hd)]; eauto 7.
           destruct Hd as [Hd | Hd]; [contradiction |].
           destruct (Option.default h); simpl in Hdef; congruence.
      * apply is_None_false in Hdef. rewrite dict_keys_set. split.
        -- intros [[-> | H] | (o & Ho & Hn & Hd)]; eauto 7.
        -- intros [H | (o & [<- | Ho] & Hn & Hd)]; eauto 7.
Qed.

(** Options with other lowercased names leave the entries of [n] alone. *)
Lemma init_loop_preserves (options : list Option.t) (self self' : t) (n : string) :
  loop options self = Ok self' ->
  (forall p, In p options -> lower (Option.name p) <> n) ->
  dict_get n (_dict self') = dict_get n (_dict self)
  /\ dict_get n (_options self') = dict_get n (_options self).
Proof.
  unfold loop. revert self.
  induction options as [|h options IH]; intros self; simpl.
  - intros [= <-] _. auto.
  - intros Hrun Hne.
    assert (Hh : lower (Option.name h) <> n) by (apply Hne; auto).
    assert (Hrest : forall p, In p options -> lower (Option.name p) <> n)
      by (intros; apply Hne; auto).
    destruct (dict_get (lower (Option.name h)) (build_keymap mapping)) as [key|].
    + destruct (dict_get key mapping); [| discriminate].
      destruct (IH _ Hrun Hrest) as [-> ->]. simpl.
      now rewrite !dict_get_set_other.
    + destruct (Option.is_required h); [discriminate |].
      destruct (negb (is_None (Option.default h)));
        destruct (IH _ Hrun Hrest) as [-> ->]; simpl;
        now rewrite !dict_get_set_other.
Qed.

(** The last option declared under a lowercased name decides the entries
    of that name: its default is stored when nothing is supplied. *)
Lemma init_loop_default (pre post : list Option.t) (o : Option.t)
    (self self' : t) :
  loop (pre ++ o :: post)%list self = Ok self' ->
  (forall p, In p post -> lower (Option.name p) <> lower (Option.name o)) ->
  ~ supplied mapping o ->
  Option.default o <> VNone ->
  dict_get (lower (Option.name o)) (_dict self') = Some (Option.default o)
  /\ dict_get (lower (Option.name o)) (_options self') = Some o.
Proof.
  rewrite init_loop_app. intros Hrun Hpost Hsup Hdef.
  destruct (loop pre self) as [e | s1]; [discriminate |].
  unfold loop in *. simpl in Hrun.
  apply keymap_get_None in Hsup. rewrite Hsup in Hrun.
  destruct (Option.is_required o); [discriminate |].
  apply is_None_false in Hdef. rewrite Hdef in Hrun. simpl in Hrun.
  destruct (init_loop_preserves _ _ _ _ Hrun Hpost) as [-> ->]. simpl.
  now rewrite !dict_get_set_same.
Qed.

(** The loop keeps both dictionaries free of duplicate keys, and every
    resolved key has its option recorded. *)
Lemma init_loop_wf (options : list Option.t) (self self' : t) :
  loop options self = Ok self' ->
  NoDup (dict_keys (_dict self)) ->
  (forall k, In k (dict_keys (_dict self)) -> In k (dict_keys (_options self))) ->
  NoDup (dict_keys (_dict self'))
  /\ (forall k, In k (dict_keys (_dict self')) ->
                In k (dict_keys (_options self'))).
Proof.
  unfold loop. revert self.
  induction options as [|h options IH]; intros self; simpl.
  - intros [= <-]. auto.
  - intros Hrun Hnd Hsub.
    assert (Hstep : forall v,
               NoDup (dict_keys (dict_set (lower (Option.name h)) v (_dict self)))
               /\ (forall k,
                     In k (dict_keys (dict_set (lower (Option.name h)) v (_dict self))) ->
                     In k (dict_keys (dict_set (lower (Option.name h)) h
                                        (_options self))))).
    { intros v. split; [now apply dict_set_NoDup |].
      intros k. rewrite !dict_keys_set. intuition. }
    destruct (dict_get (lower (Option.name h)) (build_keymap mapping)) as [key|].
    + destruct (dict_get key mapping) as [v|]; [| discriminate].
      apply (IH _ Hrun); apply (Hstep v).
    + destruct (Option.is_required h); [discriminate |].
      destruct (negb (is_None (Option.default h))).
      * apply (IH _ Hrun); apply (Hstep (Option.default h)).
      * apply (IH _ Hrun); [exact Hnd |].
        simpl. intros k Hk. rewrite dict_keys_set. auto.
Qed.

End Construction.

(** ** [casted] *)

Section Casted.

Import OptionDict.

Context {host : Builtins}.

(** When the loop of [casted] ends normally, every key it visited is bound
    to the coercion of its stored value by its option's declared type, and
    the other keys of the accumulator are left as they were. *)
Lemma casted_loop_Ok (self : t) (keys : list string) (acc r : dict Value)
    (k : string) :
  casted_loop self keys acc = Ok r ->
  (In k keys ->
   exists option v,
     dict_get k (_options self) = Some option
     /\ cast_option_value (get self k VNone) option = Ok v
     /\ dict_get k r = Some v)
  /\ (~ In k keys -> dict_get k r = dict_get k acc).
Proof.
  revert acc. induction keys as [|key keys IH]; intros acc; simpl.
  - intros [= <-]. split; [intros [] | reflexivity].
  - destruct (dict_get key (_options self)) as [option|] eqn:Hopt; [| discriminate].
    destruct (cast_option_value (get self key VNone) option) as [e|v] eqn:Hcast;
      [discriminate |].
    simpl. intros Hrun. destruct (IH _ Hrun) as [IHin IHout].
    split.
    + intros Hin.
      destruct (in_dec string_dec k keys) as [Hk | Hk]; [now apply IHin |].
      destruct Hin as [-> | Hin]; [| contradiction].
      exists option, v. rewrite (IHout Hk), dict_get_set_same. auto.
    + intros Hnin. rewrite IHout by tauto.
      apply dict_get_set_other. tauto.
Qed.

(** The loop of [casted] raises as soon as one coercion raises. *)
Lemma casted_loop_raise (self : t) (keys : list string) (acc : dict Value)
    (k : string) (option : Option.t) (e : Exception) :
  In k keys ->
  dict_get k (_options self) = Some option ->
  cast_option_value (get self k VNone) option = raise e ->
  exists e', casted_loop self keys acc = raise e'.
Proof.
  revert acc. induction keys as [|key keys IH]; intros acc Hin Hopt Hcast.
  - destruct Hin.
  - simpl.
    destruct (dict_get key (_options self)) as [option'|] eqn:Hopt'; [| eauto].
    destruct (cast_option_value (get self key VNone) option') as [e'|v] eqn:Hc;
      simpl; [eauto |].
    destruct Hin as [-> | Hin]; [| now apply IH].
    rewrite Hopt in Hopt'. injection Hopt' as <-.
    rewrite Hcast in Hc. discriminate.
Qed.

Lemma get_stored (self : t) (n : string) (v default : Value) :
  dict_get (lower n) (_dict self) = Some v ->
  get self (lower n) default = v.
Proof. unfold get. rewrite lower_idem. now intros ->. Qed.

End Casted.

(** ** Coercions *)

(** [bool(f)] is false exactly on the two zeros; every other float,
    infinities and NaN included, is truthy. *)
Lemma bool_of_float_false (f : float) :
  bool_of_float f = false
  <-> exists s, FloatOps.Prim2SF f = SpecFloat.S754_zero s.
Proof.
  unfold bool_of_float. rewrite negb_false_iff, FloatAxioms.eqb_spec.
  change (FloatOps.Prim2SF PrimFloat.zero) with (SpecFloat.S754_zero false).
  destruct (FloatOps.Prim2SF f) as [s | s | | s m e]; simpl.
  - split; eauto.
  - destruct s; split; try discriminate; intros [s' H]; discriminate.
  - split; try discriminate; intros [s' H]; discriminate.
  - destruct s; split; try discriminate; intros [s' H]; discriminate.
Qed.

(** C4. [value_to_bool] is the identity on booleans; on a number it returns
    its truthiness, true exactly when the number is not zero (for a float:
    when it is neither of the two zeros); on a string it returns true exactly
    for "1", "true", "yes", "on", false exactly for "0", "false", "no",
    "off", compared case-sensitively, and raises [ValueError] for every other
    string.  So "yes" gives true, "off" gives false, "maybe" and "Yes"
    raise. *)
Theorem value_to_bool_table :
  (forall b, value_to_bool (VBool b) = Ok (Some b))
  /\ (forall z, exists b, value_to_bool (VInt z) = Ok (Some b)
                          /\ (b = true <-> z <> 0%Z))
  /\ (forall f, exists b, value_to_bool (VFloat f) = Ok (Some b)
                          /\ (b = false <->
                              exists s, FloatOps.Prim2SF f = SpecFloat.S754_zero s))
  /\ (forall s, value_to_bool (VStr s) = Ok (Some true)
                <-> s = "1" \/ s = "true" \/ s = "yes" \/ s = "on")
  /\ (forall s, value_to_bool (VStr s) = Ok (Some false)
                <-> s = "0" \/ s = "false" \/ s = "no" \/ s = "off")
  /\ (forall s, value_to_bool (VStr s) = raise (ValueError [])
                <-> ~ In s ["1"; "true"; "yes"; "on"; "0"; "false"; "no"; "off"])
  /\ value_to_bool (VStr "yes") = Ok (Some true)
  /\ value_to_bool (VStr "off") = Ok (Some false)
  /\ value_to_bool (VStr "maybe") = raise (ValueError [])
  /\ value_to_bool (VStr "Yes") = raise (ValueError []).
Proof.
  assert (Hstr : forall s,
             value_to_bool (VStr s)
             = if str_in s TRUE_VALUES then Ok (Some true)
               else if str_in s FALSE_VALUES then Ok (Some false)
               else raise (ValueError [])) by reflexivity.
  assert (Ht : forall s, str_in s TRUE_VALUES = true
                         <-> s = "1" \/ s = "true" \/ s = "yes" \/ s = "on").
  { intros s. rewrite str_in_In. unfold TRUE_VALUES. simpl.
    intuition congruence. }
  assert (Hf : forall s, str_in s FALSE_VALUES = true
                         <-> s = "0" \/ s = "false" \/ s = "no" \/ s = "off").
  { intros s. rewrite str_in_In. unfold FALSE_VALUES. simpl.
    intuition congruence. }
  split; [reflexivity |].
  split.
  { intros z. exists (bool_of_int z). split; [reflexivity |].
    unfold bool_of_int. rewrite negb_true_iff, Z.eqb_neq. tauto. }
  split.
  { intros f. exists (bool_of_float f).
    split; [reflexivity | apply bool_of_float_false]. }
  split.
  { intros s. rewrite Hstr, <- Ht.
    destruct (str_in s TRUE_VALUES); [tauto |].
    destruct (str_in s FALSE_VALUES); split; discriminate. }
  split.
  { intros s. rewrite Hstr, <- Hf.
    destruct (str_in s TRUE_VALUES) eqn:E.
    - split; [discriminate |]. intros E'.
      apply Ht in E. apply Hf in E'. exfalso. intuition (subst; discriminate).
    - destruct (str_in s FALSE_VALUES); split; auto; discriminate. }
  split.
  { intros s. rewrite Hstr.
    assert (Hin : In s ["1"; "true"; "yes"; "on"; "0"; "false"; "no"; "off"]
                  <-> str_in s TRUE_VALUES = true \/ str_in s FALSE_VALUES = true).
    { rewrite Ht, Hf. simpl. intuition. }
    rewrite Hin.
    destruct (str_in s TRUE_VALUES); [split; [discriminate | tauto] |].
    destruct (str_in s FALSE_VALUES); [split; [discriminate | tauto] |].
    split; [intros _ [H | H]; discriminate | reflexivity]. }
  repeat split.
Qed.

(** C5. Each of the four coercions maps [None] to [None] and raises
    nothing, whatever the conversions of the host do. *)
Theorem coercions_propagate_None (host : Builtins) :
  value_to_bool VNone = Ok None
  /\ value_to_int VNone = Ok None
  /\ value_to_float VNone = Ok None
  /\ value_to_string VNone = Ok None.
Proof. repeat split. Qed.

(** C10. An option built without a type has type [OptionType.str], and an
    option built without a label is labelled by its name; [Option.__init__]
    raises in neither case (it is a total function). *)
Theorem option_init_defaults (name : string) (type : option OptionType)
    (default : Value) (desc label : option string) (is_required : bool) :
  Option.type (Option.__init__ name None default desc label is_required)
  = OptionType_str
  /\ Option.label (Option.__init__ name type default desc None is_required)
     = name.
Proof. split; reflexivity. Qed.

(** C7. On every option dictionary, for every key and value, item
    assignment raises [InternalError] and leaves the dictionary as it was,
    so every read gives what it gave before. *)
Theorem setitem_immutable (self : OptionDict.t) (key : string) (value : Value) :
  let (self', outcome) := OptionDict.__setitem__ self key value in
  outcome = raise (InternalError "OptionDictionary is immutable")
  /\ self' = self
  /\ (forall k default, OptionDict.get self' k default
                        = OptionDict.get self k default)
  /\ OptionDict.__iter__ self' = OptionDict.__iter__ self.
Proof. simpl. auto. Qed.

(** ** Required options and unknown keys *)

Lemma declared_names_lower (options : list Option.t) (k : string) :
  In k (declared_names options) -> lower k = k.
Proof.
  unfold declared_names. rewrite in_map_iff.
  intros (o & <- & _). apply lower_idem.
Qed.

(** A key with no case-insensitive match is, in particular, not the
    lowercased name of a declared option. *)
Lemma undeclared_not_named (options : list Option.t) (k : string) :
  ~ declared options k -> ~ In k (declared_names options).
Proof.
  unfold declared. intros Hnd Hin. apply Hnd.
  now rewrite (declared_names_lower _ _ Hin).
Qed.

(** What [extra_keys] holds once the loop has ended normally: the keys of
    the raw mapping that are not, as spelled, the lowercased name of a
    declared option. *)
Lemma init_extra (mapping : dict Value) (options : list Option.t)
    (self : OptionDict.t) (k : string) :
  OptionDict.init_loop mapping (OptionDict.build_keymap mapping) options
    {| OptionDict._dict := []; OptionDict._options := [] |} = Ok self ->
  In k (OptionDict.extra_keys mapping self)
  <-> In k (dict_keys mapping) /\ ~ In k (declared_names options).
Proof.
  intros Hrun. unfold OptionDict.extra_keys.
  rewrite set_diff_In, !set_of_In, (init_loop_keys _ _ _ _ k Hrun). simpl.
  split; intros [Hk Hno]; split; try assumption; intros Hin; apply Hno.
  - right. unfold declared_names in Hin. apply in_map_iff in Hin as (o & Ho & Hino).
    exists o. repeat split; try assumption.
    left. unfold supplied. rewrite <- (lower_idem (Option.name o)), Ho.
    now apply in_map.
  - destruct Hin as [[] | (o & Ho & <- & _)].
    unfold declared_names. now apply in_map with (f := fun o => lower (Option.name o)).
Qed.

(** Construction either yields a dictionary or raises one of the two
    configuration errors; nothing else escapes it. *)
Lemma init_outcomes (mapping : dict Value) (options : list Option.t) :
  (exists self, OptionDict.__init__ mapping options = Ok self)
  \/ (exists e, OptionDict.__init__ mapping options = raise e
                /\ is_ConfigurationError e = true).
Proof.
  unfold OptionDict.__init__.
  destruct (init_loop_cases mapping options
              {| OptionDict._dict := []; OptionDict._options := [] |})
    as [[self ->] | [n ->]]; simpl.
  - destruct (OptionDict.extra_keys mapping self); eauto.
  - eauto.
Qed.

(** A constructed dictionary has distinct keys, each with its option, so
    the subscription [self._options[key]] in [casted] cannot raise. *)
Lemma constructed_wf (mapping : dict Value) (options : list Option.t)
    (self : OptionDict.t) :
  OptionDict.__init__ mapping options = Ok self ->
  NoDup (dict_keys (OptionDict._dict self))
  /\ (forall k, In k (dict_keys (OptionDict._dict self)) ->
                exists o, dict_get k (OptionDict._options self) = Some o).
Proof.
  unfold OptionDict.__init__. intros Hinit.
  destruct (OptionDict.init_loop mapping (OptionDict.build_keymap mapping) options
              {| OptionDict._dict := []; OptionDict._options := [] |})
    as [e | self'] eqn:Hrun; [discriminate |].
  simpl in Hinit.
  destruct (OptionDict.extra_keys mapping self'); [| discriminate].
  injection Hinit as ->.
  destruct (init_loop_wf mapping options _ _ Hrun) as [Hnd Hsub].
  - constructor.
  - intros k [].
  - split; [exact Hnd |]. intros k Hk. now apply dict_get_In_keys, Hsub.
Qed.

(** A raw key that is not the lowercased name of a declared option makes
    construction fail. *)
Lemma unnamed_key_rejected (mapping : dict Value) (options : list Option.t)
    (k : string) :
  In k (dict_keys mapping) -> ~ In k (declared_names options) ->
  exists e, OptionDict.__init__ mapping options = raise e
            /\ is_ConfigurationError e = true.
Proof.
  intros Hk Hno.
  destruct (init_outcomes mapping options) as [[self Hok] | H]; [| exact H].
  exfalso. unfold OptionDict.__init__ in Hok.
  destruct (OptionDict.init_loop mapping (OptionDict.build_keymap mapping) options
              {| OptionDict._dict := []; OptionDict._options := [] |})
    as [e | self'] eqn:Hrun; [discriminate |].
  simpl in Hok.
  destruct (OptionDict.extra_keys mapping self') as [|x extra] eqn:Hextra;
    [| discriminate].
  assert (Hin : In k (OptionDict.extra_keys mapping self'))
    by (apply (init_extra _ _ _ k Hrun); auto).
  rewrite Hextra in Hin. destruct Hin.
Qed.

(** A raw key with no matching declared option makes construction fail. *)
Lemma undeclared_key_rejected (mapping : dict Value) (options : list Option.t)
    (k : string) :
  In k (dict_keys mapping) -> ~ declared options k ->
  exists e, OptionDict.__init__ mapping options = raise e
            /\ is_ConfigurationError e = true.
Proof.
  intros Hk Hnd. apply unnamed_key_rejected with k; [assumption |].
  now apply undeclared_not_named.
Qed.

(** A raw key that is not spelled in lower case makes construction fail,
    whatever the schema. *)
Lemma mixed_case_key_rejected (mapping : dict Value) (options : list Option.t)
    (k : string) :
  In k (dict_keys mapping) -> lower k <> k ->
  exists e, OptionDict.__init__ mapping options = raise e
            /\ is_ConfigurationError e = true.
Proof.
  intros Hk Hl. apply unnamed_key_rejected with k; [assumption |].
  intros Hin. now apply Hl, declared_names_lower with options.
Qed.

(** C1 (as the code behaves). Schema [[Option("Indent", INT)]] with raw
    mapping [{"INDENT": "8"}]: the only raw key matches a declared option
    case-insensitively, yet construction raises
    [ConfigurationError("Unknown options: INDENT")]: the comparison of
    [set(mapping.keys())] with [set(self._dict.keys())] is case-sensitive. *)
Theorem uppercase_key_rejected :
  let options :=
    [Option.__init__ "Indent" (Some OptionType_int) VNone None None false] in
  let mapping := [("INDENT", VStr "8")] in
  Forall (declared options) (dict_keys mapping)
  /\ OptionDict.__init__ mapping options
     = raise (ConfigurationError "Unknown options: INDENT").
Proof.
  split.
  - repeat constructor.
  - reflexivity.
Qed.

(** C2. If the schema contains a required option whose lowercased name is
    not among the lowercased keys of the raw mapping, construction raises
    [OptionRequiredError] (a [ConfigurationError]) and produces no
    dictionary.  The error carries the lowercased name of the first such
    option in schema order. *)
Theorem required_option_missing (mapping : dict Value)
    (options : list Option.t) (o : Option.t) :
  In o options -> Option.is_required o = true -> ~ supplied mapping o ->
  exists pre o' post,
    options = (pre ++ o' :: post)%list
    /\ (forall p, In p pre -> Option.is_required p = true -> supplied mapping p)
    /\ Option.is_required o' = true
    /\ ~ supplied mapping o'
    /\ OptionDict.__init__ mapping options
       = raise (OptionRequiredError (lower (Option.name o')))
    /\ is_ConfigurationError (OptionRequiredError (lower (Option.name o'))) = true.
Proof.
  intros Hin Hreq Hmiss.
  destruct (init_loop_required mapping options
              {| OptionDict._dict := []; OptionDict._options := [] |})
    as (pre & o' & post & Hsplit & Hpre & Hreq' & Hmiss' & Hrun);
    [now exists o |].
  exists pre, o', post. repeat split; try assumption.
  unfold OptionDict.__init__. now rewrite Hrun.
Qed.

(** Schema [[Option("x", STR, is_required=True)]] with raw [{}] fails
    naming "x". *)
Lemma required_option_missing_witness :
  exists pre o' post,
    [Option.__init__ "x" (Some OptionType_str) VNone None None true]
    = (pre ++ o' :: post)%list
    /\ (forall p, In p pre -> Option.is_required p = true -> supplied [] p)
    /\ Option.is_required o' = true
    /\ ~ supplied [] o'
    /\ OptionDict.__init__ []
         [Option.__init__ "x" (Some OptionType_str) VNone None None true]
       = raise (OptionRequiredError (lower (Option.name o')))
    /\ is_ConfigurationError (OptionRequiredError (lower (Option.name o'))) = true.
Proof.
  apply (required_option_missing []
           [Option.__init__ "x" (Some OptionType_str) VNone None None true]
           (Option.__init__ "x" (Some OptionType_str) VNone None None true)).
  - left. reflexivity.
  - reflexivity.
  - intros H. exact H.
Defined.

(** C3. When construction fails with the unknown-options error, the message
    is "Unknown options: " followed by the offending keys joined by ", ",
    in strictly ascending order (sorted, each key once).  Every raw key
    with no matching declared option is in that list, so all offenders are
    reported at once; the list holds exactly the raw keys that are not, as
    spelled, the lowercased name of a declared option. *)
Theorem unknown_options_lists_all (mapping : dict Value)
    (options : list Option.t) (msg : string) :
  OptionDict.__init__ mapping options = raise (ConfigurationError msg) ->
  exists extra,
    msg = "Unknown options: " ++ join ", " extra
    /\ extra <> []
    /\ StronglySorted str_lt extra
    /\ (forall k, In k (dict_keys mapping) -> ~ declared options k -> In k extra)
    /\ (forall k, In k extra
                  <-> In k (dict_keys mapping) /\ ~ In k (declared_names options)).
Proof.
  unfold OptionDict.__init__.
  destruct (OptionDict.init_loop mapping (OptionDict.build_keymap mapping) options
              {| OptionDict._dict := []; OptionDict._options := [] |})
    as [e | self] eqn:Hrun; simpl.
  - destruct (init_loop_cases mapping options
                {| OptionDict._dict := []; OptionDict._options := [] |})
      as [[self H] | [n H]]; rewrite H in Hrun; [discriminate |].
    injection Hrun as <-. discriminate.
  - destruct (OptionDict.extra_keys mapping self) as [|x extra] eqn:Hextra;
      [discriminate |].
    intros [= <-]. exists (sorted (x :: extra)).
    assert (Hmem : forall k, In k (sorted (x :: extra))
                             <-> In k (dict_keys mapping)
                                 /\ ~ In k (declared_names options)).
    { intros k. rewrite sorted_In, <- Hextra. now apply init_extra. }
    split; [reflexivity |]. split; [| split; [| split]].
    + intros Hnil. assert (Hx : In x (sorted (x :: extra)))
        by (apply sorted_In; now left).
      rewrite Hnil in Hx. destruct Hx.
    + apply sorted_strict. rewrite <- Hextra.
      apply set_diff_NoDup, set_of_NoDup.
    + intros k Hk Hnd. apply Hmem. split; [assumption |].
      now apply undeclared_not_named.
    + exact Hmem.
Qed.

(** Schema [[Option("x", STR)]] with raw [{"x": "1", "y": "2", "a": "3"}]
    fails listing "a, y". *)
Lemma unknown_options_lists_all_witness :
  exists extra,
    "Unknown options: a, y" = "Unknown options: " ++ join ", " extra
    /\ extra <> []
    /\ StronglySorted str_lt extra
    /\ (forall k,
          In k (dict_keys [("x", VStr "1"); ("y", VStr "2"); ("a", VStr "3")]) ->
          ~ declared [Option.__init__ "x" (Some OptionType_str) VNone None None false] k ->
          In k extra)
    /\ (forall k,
          In k extra
          <-> In k (dict_keys [("x", VStr "1"); ("y", VStr "2"); ("a", VStr "3")])
              /\ ~ In k (declared_names
                           [Option.__init__ "x" (Some OptionType_str) VNone None None false])).
Proof.
  apply (unknown_options_lists_all
           [("x", VStr "1"); ("y", VStr "2"); ("a", VStr "3")]
           [Option.__init__ "x" (Some OptionType_str) VNone None None false]).
  reflexivity.
Defined.

(** ** The extension registry *)

Section RegistryProperties.

Import ExtensionRegistry.

Context {Class : Type}.
Variable issubclass_Extensible : Class -> bool.

(** C9. [registered_names()] is strictly ascending (sorted, each name
    once) and holds exactly the names that are keys of [classes] or of
    [modules].  It reads the two mappings only, so it loads nothing, and
    the answer does not change when a lazily known name is resolved, that
    is, registered in [classes] as well. *)
Theorem registered_names_sorted_union (self : t Class) :
  StronglySorted str_lt (registered_names self)
  /\ (forall x, In x (registered_names self)
                <-> In x (dict_keys (classes self))
                    \/ In x (dict_keys (modules self)))
  /\ (forall ext_name c,
        In ext_name (dict_keys (modules self)) ->
        registered_names
          (fst (register issubclass_Extensible self ext_name c))
        = registered_names self).
Proof.
  assert (Hsorted : forall r : t Class,
             StronglySorted str_lt (registered_names r)).
  { intros r. apply sorted_strict, set_union_NoDup. }
  assert (Hmem : forall (r : t Class) x,
             In x (registered_names r)
             <-> In x (dict_keys (classes r)) \/ In x (dict_keys (modules r))).
  { intros r x. unfold registered_names.
    now rewrite sorted_In, set_union_In, !set_of_In. }
  split; [apply Hsorted |]. split; [apply Hmem |].
  intros ext_name c Hlazy. apply strict_sorted_ext; try apply Hsorted.
  intros x. rewrite !Hmem. unfold register.
  destruct (issubclass_Extensible c); simpl; [| tauto].
  rewrite dict_keys_set. intuition (subst; auto).
Qed.

Context {Host : Type}.
Variable import_module :
  string -> Host * t Class -> (Host * t Class) * option Exception.

Lemma dict_contains_get {V : Type} (k : string) (d : dict V) :
  dict_contains k d = false <-> dict_get k d = None.
Proof.
  unfold dict_contains. destruct (dict_get k d); split; congruence.
Qed.

(** With the name in [classes], nothing is loaded. *)
Lemma load_if_lazy_present (ext_name : string) (w : World Class Host) (c : Class) :
  dict_get ext_name (classes (registry w)) = Some c ->
  load_if_lazy import_module ext_name w = (w, None).
Proof.
  intros H. unfold load_if_lazy, dict_contains. now rewrite H.
Qed.

(** With the name in neither mapping, nothing is loaded. *)
Lemma load_if_lazy_unknown (ext_name : string) (w : World Class Host) :
  dict_get ext_name (modules (registry w)) = None ->
  load_if_lazy import_module ext_name w = (w, None).
Proof.
  intros H. unfold load_if_lazy, dict_contains. rewrite H.
  now rewrite andb_false_r.
Qed.

(** With the name in [modules] only, its locator is loaded, once. *)
Lemma load_if_lazy_lazy (ext_name module : string) (w : World Class Host) :
  dict_get ext_name (classes (registry w)) = None ->
  dict_get ext_name (modules (registry w)) = Some module ->
  load_if_lazy import_module ext_name w
  = let '((h, r), exc) := import_module module (host w, registry w) in
    ({| host := h; registry := r; imported := (imported w ++ [module])%list |},
     exc).
Proof.
  intros Hc Hm. unfold load_if_lazy, dict_contains. now rewrite Hc, Hm.
Qed.

(** C8. [extension(name)] on any catalog, in any process state.
    - If [name] is in [classes], the call returns [classes[name]], loads
      nothing and changes nothing; this is the case after [register] and
      after a call of [extension] that returned a class, so such a name is
      never loaded again.
    - A module is loaded only if [name] is absent from [classes] and
      present in [modules]; then the locator [modules[name]] is loaded,
      once.
    - If, after the load (if any) has ended normally, [name] is not in
      [classes], the call raises [InternalError] with the message
      "Unknown extension '<name>' of type '<catalog name>'". *)
Theorem extension_lookup (ext_name : string) (w : World Class Host) :
  (forall c,
      dict_get ext_name (classes (registry w)) = Some c ->
      extension import_module ext_name w = (w, Ok c))
  /\ (forall c self h log,
        issubclass_Extensible c = true ->
        self = fst (register issubclass_Extensible (registry w) ext_name c) ->
        extension import_module ext_name
          {| host := h; registry := self; imported := log |}
        = ({| host := h; registry := self; imported := log |}, Ok c))
  /\ (forall w' c,
        extension import_module ext_name w = (w', Ok c) ->
        extension import_module ext_name w' = (w', Ok c))
  /\ (imported (fst (extension import_module ext_name w)) <> imported w ->
      dict_contains ext_name (classes (registry w)) = false
      /\ dict_contains ext_name (modules (registry w)) = true)
  /\ (dict_contains ext_name (classes (registry w)) = false ->
      dict_contains ext_name (modules (registry w)) = false ->
      extension import_module ext_name w
      = (w, raise (InternalError
                     ("Unknown extension '" ++ ext_name ++ "' of type '"
                      ++ name (registry w) ++ "'"))))
  /\ (forall module h r exc,
        dict_contains ext_name (classes (registry w)) = false ->
        dict_get ext_name (modules (registry w)) = Some module ->
        import_module module (host w, registry w) = ((h, r), exc) ->
        fst (extension import_module ext_name w)
        = {| host := h; registry := r;
             imported := (imported w ++ [module])%list |}
        /\ (forall e, exc = Some e ->
              snd (extension import_module ext_name w) = raise e)
        /\ (forall c, exc = None -> dict_get ext_name (classes r) = Some c ->
              snd (extension import_module ext_name w) = Ok c)
        /\ (exc = None -> dict_contains ext_name (classes r) = false ->
            snd (extension import_module ext_name w)
            = raise (InternalError
                       ("Unknown extension '" ++ ext_name ++ "' of type '"
                        ++ name r ++ "'")))).
Proof.
  assert (Hpresent : forall (w0 : World Class Host) c,
             dict_get ext_name (classes (registry w0)) = Some c ->
             extension import_module ext_name w0 = (w0, Ok c)).
  { intros w0 c H. unfold extension.
    rewrite (load_if_lazy_present _ _ _ H). now rewrite H. }
  split; [apply Hpresent |].
  split.
  { intros c self h log Hsub ->. apply Hpresent. simpl.
    unfold register. rewrite Hsub. simpl. apply dict_get_set_same. }
  split.
  { intros w' c H. apply Hpresent.
    unfold extension in H.
    destruct (load_if_lazy import_module ext_name w) as [w1 [e|]];
      [discriminate |].
    destruct (dict_get ext_name (classes (registry w1))) as [c'|] eqn:Hc;
      [| discriminate].
    injection H as <- <-. exact Hc. }
  split.
  { unfold extension, load_if_lazy.
    destruct (dict_contains ext_name (classes (registry w))); simpl.
    - destruct (dict_get ext_name (classes (registry w))); simpl; congruence.
    - destruct (dict_contains ext_name (modules (registry w))); [auto |].
      destruct (dict_get ext_name (classes (registry w))); simpl; congruence. }
  split.
  { intros Hc Hm. apply dict_contains_get in Hc, Hm.
    unfold extension. rewrite (load_if_lazy_unknown _ _ Hm).
    now rewrite Hc. }
  intros module h r exc Hc Hm Himp. apply dict_contains_get in Hc.
  unfold extension. rewrite (load_if_lazy_lazy _ _ _ Hc Hm), Himp.
  destruct exc as [e|]; simpl.
  - repeat split; try discriminate. now intros e' [= ->].
  - destruct (dict_get ext_name (classes r)) as [c|] eqn:Hr; simpl.
    + repeat split; try discriminate.
      * now intros c' _ [= ->].
      * intros _ H. apply dict_contains_get in H. congruence.
    + repeat split; discriminate.
Qed.

End RegistryProperties.

(** ** Defaults *)

(** One required option with a default and no supplied value: construction
    fails, the default is not used.  Two options under the same lowercased
    name: the default of the first is replaced by that of the second. *)
Lemma default_not_always_stored :
  (let o := Option.__init__ "x" (Some OptionType_int) (VInt 1) None None true in
   In o [o] /\ Option.default o <> VNone /\ ~ supplied [] o
   /\ OptionDict.__init__ [] [o] = raise (OptionRequiredError "x"))
  /\ (let o1 := Option.__init__ "x" (Some OptionType_int) (VInt 1) None None false in
      let o2 := Option.__init__ "x" (Some OptionType_int) (VInt 2) None None false in
      In o1 [o1; o2] /\ Option.default o1 <> VNone /\ ~ supplied [] o1
      /\ exists self,
          OptionDict.__init__ [] [o1; o2] = Ok self
          /\ dict_get (lower (Option.name o1)) (OptionDict._dict self)
             = Some (VInt 2)
          /\ VInt 2 <> Option.default o1).
Proof.
  split.
  - repeat split.
    + now left.
    + discriminate.
    + intros [].
  - repeat split.
    + now left.
    + discriminate.
    + intros [].
    + eexists. repeat split. discriminate.
Qed.

(** C6 (amended). Whenever construction yields a dictionary, every declared
    option with a non-null default and no supplied value, provided no later
    option of the schema has the same lowercased name, has its default
    stored under its lowercased name; and if [casted()] returns, it binds
    that name to the default run through the coercion of the option's
    declared type, while it raises if that coercion raises. *)
Theorem default_applied (host : Builtins) (mapping : dict Value)
    (pre post : list Option.t) (o : Option.t) (self : OptionDict.t) :
  OptionDict.__init__ mapping (pre ++ o :: post)%list = Ok self ->
  (forall p, In p post -> lower (Option.name p) <> lower (Option.name o)) ->
  ~ supplied mapping o ->
  Option.default o <> VNone ->
  dict_get (lower (Option.name o)) (OptionDict._dict self)
  = Some (Option.default o)
  /\ (forall r,
        OptionDict.casted self = Ok r ->
        exists v,
          cast_option_value (Option.default o) o = Ok v
          /\ dict_get (lower (Option.name o)) r = Some v)
  /\ (forall e,
        cast_option_value (Option.default o) o = raise e ->
        exists e', OptionDict.casted self = raise e').
Proof.
  intros Hinit Hlast Hsup Hdef.
  unfold OptionDict.__init__ in Hinit.
  destruct (OptionDict.init_loop mapping (OptionDict.build_keymap mapping)
              (pre ++ o :: post)
              {| OptionDict._dict := []; OptionDict._options := [] |})
    as [e | self'] eqn:Hrun; [discriminate |].
  simpl in Hinit.
  destruct (OptionDict.extra_keys mapping self'); [| discriminate].
  injection Hinit as ->.
  destruct (init_loop_default mapping pre post o _ _ Hrun Hlast Hsup Hdef)
    as [Hd Ho].
  assert (Hkey : In (lower (Option.name o))
                    (dict_keys (OptionDict._dict self)))
    by (apply dict_get_In_keys; eauto).
  assert (Hget : OptionDict.get self (lower (Option.name o)) VNone
                 = Option.default o)
    by now apply get_stored.
  split; [exact Hd |]. split.
  - intros r Hr.
    destruct (casted_loop_Ok self _ [] r (lower (Option.name o)) Hr) as [Hin _].
    destruct (Hin Hkey) as (o' & v & Ho' & Hcast & Hv).
    rewrite Ho in Ho'. injection Ho' as <-.
    rewrite Hget in Hcast. eauto.
  - intros e Hcast. unfold OptionDict.casted.
    apply casted_loop_raise with (lower (Option.name o)) o e; try assumption.
    now rewrite Hget.
Qed.

(** Schema [[Option("indent", INT, default=4)]] with raw [{}]:
    [casted()["indent"] == 4]. *)
Lemma default_applied_witness :
  exists self r,
    OptionDict.__init__ []
      [Option.__init__ "indent" (Some OptionType_int) (VInt 4) None None false]
    = Ok self
    /\ OptionDict.casted (host := CPython.host) self = Ok r
    /\ dict_get "indent" (OptionDict._dict self) = Some (VInt 4)
    /\ dict_get "indent" r = Some (VInt 4).
Proof.
  set (o := Option.__init__ "indent" (Some OptionType_int) (VInt 4) None None false).
  set (self := {| OptionDict._dict := [("indent", VInt 4)];
                  OptionDict._options := [("indent", o)] |}).
  exists self, [("indent", VInt 4)].
  split; [reflexivity |]. split; [reflexivity |].
  destruct (default_applied CPython.host [] [] [] o self) as (Hd & Hr & _).
  - reflexivity.
  - intros p [].
  - intros [].
  - discriminate.
  - split; [exact Hd |].
    destruct (Hr [("indent", VInt 4)] eq_refl) as (v & Hv & Hget).
    injection Hv as <-. exact Hget.
Defined.

(** ** The registry at work *)

(** In the catalog "printer" of [Example]: "pretty" is found without a
    load; looking up "ghost" loads "printers.empty" once and then fails,
    naming "ghost" and "printer"; "nope" in an empty catalog fails without a
    load; "pretty2" is loaded on the first call and not on the second. *)
Lemma extension_lookup_witness :
  Example.extension "pretty" (Example.world Example.printers)
  = (Example.world Example.printers, Ok "PrettyPrinter")
  /\ Example.extension "nope"
       (Example.world (ExtensionRegistry.__init__ "printer"))
     = (Example.world (ExtensionRegistry.__init__ "printer"),
        raise (InternalError "Unknown extension 'nope' of type 'printer'"))
  /\ ExtensionRegistry.imported
       (fst (Example.extension "ghost" (Example.world Example.printers)))
     = ["printers.empty"]
  /\ snd (Example.extension "ghost" (Example.world Example.printers))
     = raise (InternalError "Unknown extension 'ghost' of type 'printer'")
  /\ (forall w' c,
        Example.extension "pretty2" (Example.world Example.printers)
        = (w', Ok c) ->
        Example.extension "pretty2" w' = (w', Ok c)).
Proof.
  split; [| split; [| split; [| split]]].
  - apply (extension_lookup Example.issubclass_Extensible Example.import_module
             "pretty" (Example.world Example.printers)).
    reflexivity.
  - apply (extension_lookup Example.issubclass_Extensible Example.import_module
             "nope" (Example.world (ExtensionRegistry.__init__ "printer")));
      reflexivity.
  - destruct (extension_lookup Example.issubclass_Extensible
                Example.import_module "ghost" (Example.world Example.printers))
      as (_ & _ & _ & _ & _ & H).
    destruct (H "printers.empty" tt Example.printers None
                eq_refl eq_refl eq_refl) as (Hw & _).
    unfold Example.extension. now rewrite Hw.
  - destruct (extension_lookup Example.issubclass_Extensible
                Example.import_module "ghost" (Example.world Example.printers))
      as (_ & _ & _ & _ & _ & H).
    destruct (H "printers.empty" tt Example.printers None
                eq_refl eq_refl eq_refl) as (_ & _ & _ & Hr).
    apply Hr; reflexivity.
  - apply (extension_lookup Example.issubclass_Extensible Example.import_module
             "pretty2" (Example.world Example.printers)).
Defined.

(** The names of the catalog "printer" of [Example], before and after
    "pretty2" is resolved. *)
Lemma registered_names_sorted_union_witness :
  ExtensionRegistry.registered_names Example.printers
  = ["ghost"; "pretty"; "pretty2"]
  /\ ExtensionRegistry.registered_names
       (fst (ExtensionRegistry.register Example.issubclass_Extensible
               Example.printers "pretty2" "Pretty2Printer"))
     = ExtensionRegistry.registered_names Example.printers.
Proof.
  split; [reflexivity |].
  destruct (registered_names_sorted_union Example.issubclass_Extensible
              Example.printers) as (_ & _ & H).
  apply H. simpl. auto.
Defined.

(** ** The scenarios of the specification and of the test suite *)

Section Scenarios.

Let host : Builtins := CPython.host.
Existing Instance host.

Let INT := Some OptionType_int.
Let STR := Some OptionType_str.

(** A string option holding "abc" reads back as "abc"; an integer option
    holding "10" reads as 10. *)
Example round_trip_identity :
  (self <- OptionDict.__init__ [("name", VStr "abc"); ("size", VStr "10")]
             [Option.__init__ "name" STR VNone None None false;
              Option.__init__ "size" INT VNone None None false] ;;
   s <- OptionDict.getstr self "name" VNone ;;
   z <- OptionDict.getint self "size" VNone ;;
   Ok (s, z))
  = Ok (Some "abc", Some 10%Z).
Proof. reflexivity. Qed.

(** [test_options]: [indent] is 4 from [{}], 8 from [{"indent": 8}] and
    10 from [{"indent": "10"}]. *)
Example test_options :
  let options := [Option.__init__ "indent" INT (VInt 4) None None false] in
  (self <- OptionDict.__init__ [] options ;; OptionDict.casted self)
  = Ok [("indent", VInt 4)]
  /\ (self <- OptionDict.__init__ [("indent", VInt 8)] options ;;
      OptionDict.casted self)
     = Ok [("indent", VInt 8)]
  /\ (self <- OptionDict.__init__ [("indent", VStr "10")] options ;;
      OptionDict.casted self)
     = Ok [("indent", VInt 10)].
Proof. repeat split. Qed.

(** A lower-case key is accepted by a schema that spells the option in
    mixed case; the same key in upper case is not. *)
Example case_of_raw_keys :
  let options := [Option.__init__ "Indent" INT VNone None None false] in
  (self <- OptionDict.__init__ [("indent", VStr "8")] options ;;
   OptionDict.casted self)
  = Ok [("indent", VInt 8)]
  /\ OptionDict.__init__ [("INDENT", VStr "8")] options
     = raise (ConfigurationError "Unknown options: INDENT").
Proof. split; reflexivity. Qed.

(** A value that cannot be converted makes [casted] raise [ValueError]. *)
Example unparseable_value :
  (self <- OptionDict.__init__ [("indent", VStr "wide")]
             [Option.__init__ "indent" INT VNone None None false] ;;
   OptionDict.casted self)
  = raise (ValueError
             [VStr "invalid literal for int() with base 10: 'wide'"]).
Proof. reflexivity. Qed.

End Scenarios.

(* ================================================================= *)
(** * Further properties of the option dictionary *)

(** ** What construction leaves behind *)

Lemma init_Ok_inv (mapping : dict Value) (options : list Option.t)
    (self : OptionDict.t) :
  OptionDict.__init__ mapping options = Ok self ->
  OptionDict.init_loop mapping (OptionDict.build_keymap mapping) options
    {| OptionDict._dict := []; OptionDict._options := [] |} = Ok self
  /\ OptionDict.extra_keys mapping self = [].
Proof.
  unfold OptionDict.__init__. intros Hinit.
  destruct (OptionDict.init_loop mapping (OptionDict.build_keymap mapping) options
              {| OptionDict._dict := []; OptionDict._options := [] |})
    as [e | self'] eqn:Hrun; [discriminate |].
  simpl in Hinit.
  destruct (OptionDict.extra_keys mapping self') eqn:Hextra; [| discriminate].
  injection Hinit as <-. auto.
Qed.

(** When construction succeeds, every raw key is, as spelled, the
    lowercased name of a declared option. *)
Lemma init_Ok_keys_named (mapping : dict Value) (options : list Option.t)
    (self : OptionDict.t) (k : string) :
  OptionDict.__init__ mapping options = Ok self ->
  In k (dict_keys mapping) -> In k (declared_names options).
Proof.
  intros Hinit Hk. destruct (init_Ok_inv _ _ _ Hinit) as [Hrun Hextra].
  destruct (in_dec string_dec k (declared_names options)) as [H | H];
    [exact H |].
  exfalso.
  assert (Hin : In k (OptionDict.extra_keys mapping self))
    by (apply (init_extra _ _ _ k Hrun); auto).
  rewrite Hextra in Hin. destruct Hin.
Qed.

(** The option recorded under a key bears that key as its lowercased
    name. *)
Lemma init_loop_options (mapping : dict Value) (options : list Option.t)
    (self self' : OptionDict.t) (k : string) (o : Option.t) :
  OptionDict.init_loop mapping (OptionDict.build_keymap mapping) options self
  = Ok self' ->
  dict_get k (OptionDict._options self') = Some o ->
  dict_get k (OptionDict._options self) = Some o
  \/ (In o options /\ lower (Option.name o) = k).
Proof.
  revert self. induction options as [|h options IH]; intros self; simpl.
  - intros [= <-]. auto.
  - intros Hrun Hget.
    assert (Hstep : forall d,
               dict_get k (OptionDict._options
                             {| OptionDict._dict := d;
                                OptionDict._options :=
                                  dict_set (lower (Option.name h)) h
                                    (OptionDict._options self) |}) = Some o
               \/ (In o options /\ lower (Option.name o) = k) ->
               dict_get k (OptionDict._options self) = Some o
               \/ (In o (h :: options) /\ lower (Option.name o) = k)).
    { intros d [H | [H1 H2]]; [| simpl; auto]. simpl in H.
      destruct (string_dec (lower (Option.name h)) k) as [E | E].
      - rewrite <- E, dict_get_set_same in H. injection H as <-.
        right. simpl. auto.
      - rewrite dict_get_set_other in H by assumption. auto. }
    destruct (dict_get (lower (Option.name h)) (OptionDict.build_keymap mapping))
      as [key|].
    + destruct (dict_get key mapping) as [v|]; [| discriminate].
      eapply Hstep, IH; eassumption.
    + destruct (Option.is_required h); [discriminate |].
      destruct (negb (is_None (Option.default h)));
        eapply Hstep, IH; eassumption.
Qed.

(** Where a stored value comes from: the raw mapping, through [keymap], or
    the default of an option that is not supplied. *)
Lemma init_loop_values (mapping : dict Value) (options : list Option.t)
    (self self' : OptionDict.t) (n : string) (v : Value) :
  OptionDict.init_loop mapping (OptionDict.build_keymap mapping) options self
  = Ok self' ->
  dict_get n (OptionDict._dict self') = Some v ->
  dict_get n (OptionDict._dict self) = Some v
  \/ exists o,
      In o options /\ lower (Option.name o) = n
      /\ ((exists key,
              dict_get n (OptionDict.build_keymap mapping) = Some key
              /\ dict_get key mapping = Some v)
          \/ (dict_get n (OptionDict.build_keymap mapping) = None
              /\ v = Option.default o /\ Option.default o <> VNone)).
Proof.
  revert self. induction options as [|h options IH]; intros self; simpl.
  - intros [= <-]. auto.
  - intros Hrun Hget.
    assert (Hrest : forall s,
               OptionDict.init_loop mapping (OptionDict.build_keymap mapping)
                 options s = Ok self' ->
               dict_get n (OptionDict._dict s) = Some v
               \/ exists o,
                   In o (h :: options) /\ lower (Option.name o) = n
                   /\ ((exists key,
                           dict_get n (OptionDict.build_keymap mapping) = Some key
                           /\ dict_get key mapping = Some v)
                       \/ (dict_get n (OptionDict.build_keymap mapping) = None
                           /\ v = Option.default o /\ Option.default o <> VNone))).
    { intros s Hs. destruct (IH _ Hs Hget) as [H | (o & Ho & H)]; [auto |].
      right. exists o. simpl. tauto. }
    destruct (dict_get (lower (Option.name h)) (OptionDict.build_keymap mapping))
      as [key|] eqn:Hkey.
    + destruct (dict_get key mapping) as [v0|] eqn:Hv0; [| discriminate].
      destruct (Hrest _ Hrun) as [H | H]; [| right; exact H]. simpl in H.
      destruct (string_dec (lower (Option.name h)) n) as [E | E].
      * rewrite <- E, dict_get_set_same in H. injection H as <-.
        right. exists h. rewrite <- E. simpl. eauto 8.
      * rewrite dict_get_set_other in H by assumption. auto.
    + destruct (Option.is_required h); [discriminate |].
      destruct (is_None (Option.default h)) eqn:Hdef; simpl in Hrun.
      * destruct (Hrest _ Hrun) as [H | H]; auto.
      * destruct (Hrest _ Hrun) as [H | H]; [| right; exact H]. simpl in H.
        apply is_None_false in Hdef.
        destruct (string_dec (lower (Option.name h)) n) as [E | E].
        -- rewrite <- E, dict_get_set_same in H. injection H as <-.
           right. exists h. rewrite <- E. simpl. auto 8.
        -- rewrite dict_get_set_other in H by assumption. auto.
Qed.

(** The keys of a constructed dictionary: the lowercased names of the
    options that are supplied or carry a default. *)
Lemma constructed_keys (mapping : dict Value) (options : list Option.t)
    (self : OptionDict.t) (n : string) :
  OptionDict.__init__ mapping options = Ok self ->
  In n (dict_keys (OptionDict._dict self))
  <-> exists o, In o options /\ lower (Option.name o) = n
                /\ (supplied mapping o \/ Option.default o <> VNone).
Proof.
  intros Hinit. destruct (init_Ok_inv _ _ _ Hinit) as [Hrun _].
  rewrite (init_loop_keys _ _ _ _ n Hrun). simpl. tauto.
Qed.

(** A raw key in lower case supplies the options that bear it as their
    lowercased name. *)
Lemma raw_key_supplies (mapping : dict Value) (o : Option.t) (k : string) :
  In k (dict_keys mapping) -> lower k = k -> lower (Option.name o) = k ->
  supplied mapping o.
Proof.
  intros Hk Hl Hn. unfold supplied. rewrite Hn, <- Hl. now apply in_map.
Qed.

(** Every raw key is a key of the constructed dictionary. *)
Lemma constructed_has_raw_keys (mapping : dict Value)
    (options : list Option.t) (self : OptionDict.t) (k : string) :
  OptionDict.__init__ mapping options = Ok self ->
  In k (dict_keys mapping) -> In k (dict_keys (OptionDict._dict self)).
Proof.
  intros Hinit Hk. apply (constructed_keys _ _ _ k Hinit).
  assert (Hn : In k (declared_names options))
    by now apply init_Ok_keys_named with mapping self.
  assert (Hl : lower k = k) by now apply declared_names_lower with options.
  unfold declared_names in Hn. apply in_map_iff in Hn as (o & Ho & Hino).
  exists o. repeat split; try assumption.
  left. now apply raw_key_supplies with k.
Qed.

(** The value stored under a raw key is the raw value. *)
Lemma constructed_stores_raw (mapping : dict Value)
    (options : list Option.t) (self : OptionDict.t) (k : string) (v : Value) :
  OptionDict.__init__ mapping options = Ok self ->
  dict_get k mapping = Some v ->
  dict_get k (OptionDict._dict self) = Some v.
Proof.
  intros Hinit Hv.
  assert (Hk : In k (dict_keys mapping)) by (apply dict_get_In_keys; eauto).
  assert (Hl : lower k = k).
  { apply declared_names_lower with options.
    now apply init_Ok_keys_named with mapping self. }
  destruct (init_Ok_inv _ _ _ Hinit) as [Hrun _].
  assert (Hin : In k (dict_keys (OptionDict._dict self)))
    by now apply constructed_has_raw_keys with mapping options.
  apply dict_get_In_keys in Hin as [v' Hv'].
  destruct (init_loop_values _ _ _ _ k v' Hrun Hv')
    as [H | (o & Ho & Hn & [(key & Hkey & Hval) | (Hnone & _)])].
  - discriminate.
  - destruct (keymap_get_Some _ _ _ Hkey) as (Hkl & _).
    assert (Hkey_l : lower key = key).
    { apply declared_names_lower with options.
      apply init_Ok_keys_named with mapping self; [assumption |].
      apply dict_get_In_keys. eauto. }
    rewrite Hkey_l in Hkl. subst key. congruence.
  - exfalso. rewrite <- Hn in Hnone. apply keymap_get_None in Hnone.
    apply Hnone. now apply raw_key_supplies with k.
Qed.

(** X1. Construction succeeds exactly when every required option is
    supplied (some raw key equals its name up to case) and every raw key is,
    as spelled, the lowercased name of a declared option. *)
Theorem construction_accepts_iff (mapping : dict Value)
    (options : list Option.t) :
  (exists self, OptionDict.__init__ mapping options = Ok self)
  <-> (forall o, In o options -> Option.is_required o = true ->
                 supplied mapping o)
      /\ (forall k, In k (dict_keys mapping) -> In k (declared_names options)).
Proof.
  split.
  - intros [self Hinit]. split.
    + intros o Ho Hreq.
      destruct (in_dec string_dec (lower (Option.name o))
                  (map lower (dict_keys mapping))) as [H | H]; [exact H |].
      exfalso.
      destruct (init_loop_required mapping options
                  {| OptionDict._dict := []; OptionDict._options := [] |})
        as (pre & o' & post & _ & _ & _ & _ & Hrun); [now exists o |].
      destruct (init_Ok_inv _ _ _ Hinit) as [Hok _].
      rewrite Hrun in Hok. discriminate.
    + intros k Hk. now apply init_Ok_keys_named with mapping self.
  - intros [Hreq Hkeys].
    destruct (init_loop_Ok mapping options
                {| OptionDict._dict := []; OptionDict._options := [] |} Hreq)
      as [self Hrun].
    exists self. unfold OptionDict.__init__. rewrite Hrun. simpl.
    destruct (OptionDict.extra_keys mapping self) as [|x extra] eqn:Hextra;
      [reflexivity |].
    exfalso.
    assert (Hx : In x (OptionDict.extra_keys mapping self))
      by (rewrite Hextra; now left).
    apply (init_extra _ _ _ x Hrun) in Hx as [Hx Hno]. auto.
Qed.

(** X2. The keys of a constructed dictionary are distinct and in lower
    case; each is the lowercased name of a declared option, which is the
    option recorded for it; every raw key is among them; and [len] counts
    them, so it is at most the number of declared options. *)
Theorem constructed_keys_invariant (mapping : dict Value)
    (options : list Option.t) (self : OptionDict.t) :
  OptionDict.__init__ mapping options = Ok self ->
  NoDup (OptionDict.__iter__ self)
  /\ OptionDict.__len__ self = List.length (OptionDict.__iter__ self)
  /\ OptionDict.__len__ self <= List.length options
  /\ (forall k, In k (dict_keys mapping) -> In k (OptionDict.__iter__ self))
  /\ (forall k, In k (OptionDict.__iter__ self) ->
        lower k = k
        /\ exists o, In o options /\ lower (Option.name o) = k
                     /\ dict_get k (OptionDict._options self) = Some o).
Proof.
  intros Hinit.
  destruct (constructed_wf _ _ _ Hinit) as [Hnd Hopt].
  destruct (init_Ok_inv _ _ _ Hinit) as [Hrun _].
  unfold OptionDict.__iter__, OptionDict.__len__.
  assert (Hnamed : forall k, In k (dict_keys (OptionDict._dict self)) ->
                             In k (declared_names options)).
  { intros k Hk. apply (constructed_keys _ _ _ k Hinit) in Hk
      as (o & Ho & <- & _).
    unfold declared_names.
    now apply in_map with (f := fun o => lower (Option.name o)). }
  split; [exact Hnd |]. split.
  { unfold dict_keys. now rewrite length_map. }
  split.
  { replace (List.length options) with (List.length (declared_names options))
      by (unfold declared_names; apply length_map).
    replace (List.length (OptionDict._dict self))
      with (List.length (dict_keys (OptionDict._dict self)))
      by (unfold dict_keys; apply length_map).
    apply NoDup_incl_length; [exact Hnd | exact Hnamed]. }
  split.
  { intros k Hk. now apply constructed_has_raw_keys with mapping options. }
  intros k Hk. split.
  { now apply declared_names_lower with options, Hnamed. }
  destruct (Hopt k Hk) as [o Ho]. exists o.
  destruct (init_loop_options _ _ _ _ k o Hrun Ho) as [H | [H1 H2]];
    [discriminate | auto].
Qed.

Lemma constructed_keys_invariant_witness :
  OptionDict.__init__ Sample.mapping Sample.options = Ok Sample.constructed
  /\ OptionDict.__iter__ Sample.constructed = ["name"; "indent"; "size"]
  /\ NoDup (OptionDict.__iter__ Sample.constructed)
  /\ OptionDict.__len__ Sample.constructed <= 4.
Proof.
  split; [reflexivity |]. split; [reflexivity |].
  destruct (constructed_keys_invariant Sample.mapping Sample.options
              Sample.constructed eq_refl) as (H1 & _ & H3 & _).
  split; [exact H1 | exact H3].
Defined.

(** X3. A constructed dictionary gives back every raw value as it was
    supplied, uncoerced, under any spelling of its key; the value supplied
    wins over a default. *)
Theorem supplied_value_read_back (mapping : dict Value)
    (options : list Option.t) (self : OptionDict.t) (k k' : string)
    (v : Value) :
  OptionDict.__init__ mapping options = Ok self ->
  dict_get k mapping = Some v ->
  lower k' = k ->
  OptionDict.__getitem__ self k' = Ok v
  /\ forall default, OptionDict.get self k' default = v.
Proof.
  intros Hinit Hv Hk'.
  pose proof (constructed_stores_raw _ _ _ _ _ Hinit Hv) as Hstored.
  unfold OptionDict.__getitem__, OptionDict.get. rewrite Hk', Hstored. auto.
Qed.

Lemma supplied_value_read_back_witness :
  OptionDict.__getitem__ Sample.constructed "SIZE" = Ok (VStr "10")
  /\ forall default, OptionDict.get Sample.constructed "SIZE" default = VStr "10".
Proof.
  apply (supplied_value_read_back Sample.mapping Sample.options
           Sample.constructed "size" "SIZE" (VStr "10"));
    reflexivity.
Defined.

(** X4. In a constructed dictionary a name is absent when every option
    declared under it (if any) is neither supplied nor given a default:
    subscription raises [KeyError] with the lowercased name, [get] returns
    its default argument, and the typed accessors without default return
    [None]. *)
Theorem absent_key_lookup (host : Builtins) (mapping : dict Value)
    (options : list Option.t) (self : OptionDict.t) (k : string) :
  OptionDict.__init__ mapping options = Ok self ->
  (forall o, In o options -> lower (Option.name o) = lower k ->
             ~ supplied mapping o /\ Option.default o = VNone) ->
  OptionDict.__getitem__ self k = raise (KeyError (lower k))
  /\ (forall default, OptionDict.get self k default = default)
  /\ OptionDict.getstr self k VNone = Ok None
  /\ OptionDict.getint self k VNone = Ok None
  /\ OptionDict.getfloat self k VNone = Ok None
  /\ OptionDict.getbool self k VNone = Ok None.
Proof.
  intros Hinit Habs.
  assert (Hnone : dict_get (lower k) (OptionDict._dict self) = None).
  { apply dict_get_None_keys. intros Hin.
    apply (constructed_keys _ _ _ (lower k) Hinit) in Hin
      as (o & Ho & Hn & Hd).
    destruct (Habs o Ho Hn) as [Hs Hdef]. tauto. }
  unfold OptionDict.__getitem__, OptionDict.getstr, OptionDict.getint,
    OptionDict.getfloat, OptionDict.getbool, OptionDict.get.
  rewrite Hnone. simpl. auto 7.
Qed.

Lemma absent_key_lookup_witness :
  OptionDict.__getitem__ Sample.constructed "Debug" = raise (KeyError "debug")
  /\ (forall default, OptionDict.get Sample.constructed "Debug" default = default)
  /\ OptionDict.getstr (host := CPython.host) Sample.constructed "Debug" VNone
     = Ok None
  /\ OptionDict.getint (host := CPython.host) Sample.constructed "Debug" VNone
     = Ok None
  /\ OptionDict.getfloat (host := CPython.host) Sample.constructed "Debug" VNone
     = Ok None
  /\ OptionDict.getbool Sample.constructed "Debug" VNone = Ok None.
Proof.
  apply (absent_key_lookup CPython.host Sample.mapping Sample.options
           Sample.constructed "Debug").
  - reflexivity.
  - intros o [<- | [<- | [<- | [<- | []]]]] Hn;
      try (simpl in Hn; discriminate Hn).
    split; [| reflexivity].
    unfold supplied. simpl. intros [H | [H | []]]; discriminate H.
Defined.

(** ** [casted] on a constructed dictionary *)

Lemma dict_keys_set_absent {V : Type} (k : string) (v : V) (d : dict V) :
  ~ In k (dict_keys d) -> dict_keys (dict_set k v d) = (dict_keys d ++ [k])%list.
Proof.
  induction d as [|[k' v'] d IH]; simpl; intros Hnin.
  - reflexivity.
  - destruct (String.eqb_spec k k') as [-> | Hne]; [tauto |].
    simpl. f_equal. apply IH. tauto.
Qed.

Section CastedOutcome.

Import OptionDict.

Context {host : Builtins}.

(** The loop of [casted] appends its keys, in order, to those of the
    accumulator. *)
Lemma casted_loop_keys (self : t) (keys : list string) (acc r : dict Value) :
  casted_loop self keys acc = Ok r ->
  NoDup keys ->
  (forall k, In k keys -> ~ In k (dict_keys acc)) ->
  dict_keys r = (dict_keys acc ++ keys)%list.
Proof.
  revert acc. induction keys as [|key keys IH]; intros acc; simpl.
  - intros [= <-] _ _. now rewrite app_nil_r.
  - destruct (dict_get key (_options self)) as [option|]; [| discriminate].
    destruct (cast_option_value (get self key VNone) option) as [e|v];
      [discriminate |].
    simpl. intros Hrun Hnd Hfresh.
    apply NoDup_cons_iff in Hnd as [Hkey Hnd].
    rewrite (IH _ Hrun Hnd).
    + rewrite dict_keys_set_absent by (apply Hfresh; now left).
      now rewrite <- app_assoc.
    + intros k Hk. rewrite dict_keys_set.
      intros [-> | Hin]; [contradiction |].
      apply (Hfresh k); [now right | assumption].
Qed.

(** What the loop of [casted] can raise: [KeyError] at a key without a
    recorded option, or what the coercion of a stored value raises. *)
Lemma casted_loop_raise_inv (self : t) (keys : list string) (acc : dict Value)
    (e : Exception) :
  casted_loop self keys acc = raise e ->
  (exists k, In k keys /\ dict_get k (_options self) = None)
  \/ (exists k option,
         In k keys /\ dict_get k (_options self) = Some option
         /\ cast_option_value (get self k VNone) option = raise e).
Proof.
  revert acc. induction keys as [|key keys IH]; intros acc; simpl.
  - discriminate.
  - destruct (dict_get key (_options self)) as [option|] eqn:Hopt.
    + destruct (cast_option_value (get self key VNone) option) as [e'|v] eqn:Hc;
        simpl.
      * intros [= <-]. right. exists key, option. auto.
      * intros Hrun. destruct (IH _ Hrun) as [(k & Hk & H) | (k & o & Hk & H)].
        -- left. exists k. auto.
        -- right. exists k, o. tauto.
    + intros _. left. exists key. auto.
Qed.

End CastedOutcome.

(** A key of a constructed dictionary, read through [get], gives the stored
    value. *)
Lemma constructed_get (mapping : dict Value) (options : list Option.t)
    (self : OptionDict.t) (k : string) (v default : Value) :
  OptionDict.__init__ mapping options = Ok self ->
  dict_get k (OptionDict._dict self) = Some v ->
  OptionDict.get self k default = v.
Proof.
  intros Hinit Hv.
  assert (Hk : In k (dict_keys (OptionDict._dict self)))
    by (apply dict_get_In_keys; eauto).
  apply (constructed_keys _ _ _ k Hinit) in Hk as (o & _ & <- & _).
  now apply get_stored.
Qed.

(** The result of [casted] on a constructed dictionary: same keys, in the
    same order, each value coerced for the option of its key. *)
Lemma casted_outcome_aux (host : Builtins) (mapping : dict Value)
    (options : list Option.t) (self : OptionDict.t) (r : dict Value) :
  OptionDict.__init__ mapping options = Ok self ->
  OptionDict.casted self = Ok r ->
  dict_keys r = dict_keys (OptionDict._dict self)
  /\ forall k v,
      dict_get k (OptionDict._dict self) = Some v ->
      exists o v',
        dict_get k (OptionDict._options self) = Some o
        /\ cast_option_value v o = Ok v'
        /\ dict_get k r = Some v'.
Proof.
  intros Hinit Hr. destruct (constructed_wf _ _ _ Hinit) as [Hnd Hopt].
  unfold OptionDict.casted in Hr. split.
  - now rewrite (casted_loop_keys _ _ _ _ Hr Hnd) by (intros k _ []).
  - intros k v Hv.
    assert (Hk : In k (dict_keys (OptionDict._dict self)))
      by (apply dict_get_In_keys; eauto).
    destruct (casted_loop_Ok self _ [] r k Hr) as [Hin _].
    destruct (Hin Hk) as (o & v' & Ho & Hcast & Hget).
    rewrite (constructed_get _ _ _ _ _ VNone Hinit Hv) in Hcast. eauto.
Qed.

(** X5. [casted()] on a constructed dictionary.  When it returns, the
    result has the keys of the dictionary, in the same order, each bound to
    its stored value run through the coercion of the option recorded for
    the key.  When it raises, the exception is the one that the coercion of
    some stored value raised: the look-up of the option of a key never
    fails. *)
Theorem casted_outcome (host : Builtins) (mapping : dict Value)
    (options : list Option.t) (self : OptionDict.t) :
  OptionDict.__init__ mapping options = Ok self ->
  (forall r,
      OptionDict.casted self = Ok r ->
      dict_keys r = OptionDict.__iter__ self
      /\ forall k v,
          dict_get k (OptionDict._dict self) = Some v ->
          exists o v',
            dict_get k (OptionDict._options self) = Some o
            /\ cast_option_value v o = Ok v'
            /\ dict_get k r = Some v')
  /\ (forall e,
        OptionDict.casted self = raise e ->
        exists k v o,
          dict_get k (OptionDict._dict self) = Some v
          /\ dict_get k (OptionDict._options self) = Some o
          /\ cast_option_value v o = raise e).
Proof.
  intros Hinit. destruct (constructed_wf _ _ _ Hinit) as [Hnd Hopt].
  unfold OptionDict.casted, OptionDict.__iter__. split.
  - intros r Hr. now apply casted_outcome_aux with mapping options.
  - intros e He.
    destruct (casted_loop_raise_inv _ _ _ _ He)
      as [(k & Hk & Hno) | (k & o & Hk & Ho & Hcast)].
    + destruct (Hopt k Hk) as [o Ho]. congruence.
    + apply dict_get_In_keys in Hk as [v Hv].
      rewrite (constructed_get _ _ _ _ _ VNone Hinit Hv) in Hcast. eauto 7.
Qed.

Lemma casted_outcome_witness :
  OptionDict.casted (host := CPython.host) Sample.constructed
  = Ok [("name", VStr "abc"); ("indent", VInt 4); ("size", VInt 10)]
  /\ dict_keys [("name", VStr "abc"); ("indent", VInt 4); ("size", VInt 10)]
     = OptionDict.__iter__ Sample.constructed.
Proof.
  split; [reflexivity |].
  destruct (casted_outcome CPython.host Sample.mapping Sample.options
              Sample.constructed eq_refl) as [Hok _].
  apply (Hok [("name", VStr "abc"); ("indent", VInt 4); ("size", VInt 10)]).
  reflexivity.
Defined.

(** ** Coercions, once more *)

(** X6. Casting is idempotent: a value that [cast_option_value] returned
    for an option is returned unchanged when it is cast for that option
    again, whatever the conversions of the host do. *)
Theorem cast_option_value_idempotent (host : Builtins) (value value' : Value)
    (option : Option.t) :
  cast_option_value value option = Ok value' ->
  cast_option_value value' option = Ok value'.
Proof.
  unfold cast_option_value.
  destruct (Option.type option).
  - destruct (value_to_string value) as [e | [s|]]; simpl;
      [discriminate | |]; intros [= <-]; reflexivity.
  - destruct (value_to_int value) as [e | [z|]]; simpl;
      [discriminate | |]; intros [= <-]; reflexivity.
  - destruct (value_to_bool value) as [e | [b|]]; simpl;
      [discriminate | |]; intros [= <-]; reflexivity.
  - destruct (value_to_float value) as [e | [f|]]; simpl;
      [discriminate | |]; intros [= <-]; reflexivity.
Qed.

Lemma cast_option_value_idempotent_witness :
  cast_option_value (host := CPython.host) (VInt 10)
    (Option.__init__ "size" (Some OptionType_int) VNone None None true)
  = Ok (VInt 10).
Proof.
  apply (cast_option_value_idempotent CPython.host (VStr " 1_0 ")).
  reflexivity.
Defined.

(** X7. A boolean survives the conversion to a string, to an integer or
    to a float and back: [value_to_bool] undoes [value_to_string],
    [value_to_int] and [value_to_float] on booleans, for every host. *)
Theorem bool_round_trips (host : Builtins) (b : bool) :
  (s <- value_to_string (VBool b) ;; value_to_bool (of_optional VStr s))
  = Ok (Some b)
  /\ (z <- value_to_int (VBool b) ;; value_to_bool (of_optional VInt z))
     = Ok (Some b)
  /\ (f <- value_to_float (VBool b) ;; value_to_bool (of_optional VFloat f))
     = Ok (Some b).
Proof. destruct b; repeat split. Qed.

(** X8. The typed accessors agree with [casted()]: where [casted()] binds
    a key to a value, the accessor of the declared type of the key's option,
    called with any spelling of the key and any default, returns that
    value. *)
Theorem typed_accessors_agree_with_casted (host : Builtins)
    (mapping : dict Value) (options : list Option.t) (self : OptionDict.t)
    (r : dict Value) (k k' : string) (v default : Value) (o : Option.t) :
  OptionDict.__init__ mapping options = Ok self ->
  OptionDict.casted self = Ok r ->
  dict_get k r = Some v ->
  dict_get k (OptionDict._options self) = Some o ->
  lower k' = k ->
  match Option.type o with
  | OptionType_str =>
      exists s, OptionDict.getstr self k' default = Ok s
                /\ v = of_optional VStr s
  | OptionType_int =>
      exists z, OptionDict.getint self k' default = Ok z
                /\ v = of_optional VInt z
  | OptionType_float =>
      exists f, OptionDict.getfloat self k' default = Ok f
                /\ v = of_optional VFloat f
  | OptionType_bool =>
      exists b, OptionDict.getbool self k' default = Ok b
                /\ v = of_optional VBool b
  end.
Proof.
  intros Hinit Hr Hv Ho Hk'.
  destruct (casted_outcome_aux host mapping options self r Hinit Hr)
    as [Hkeys Hvals].
  assert (Hk : In k (dict_keys (OptionDict._dict self))).
  { rewrite <- Hkeys. apply dict_get_In_keys. eauto. }
  apply dict_get_In_keys in Hk as [v0 Hv0].
  destruct (Hvals k v0 Hv0) as (o' & v' & Ho' & Hcast & Hget).
  rewrite Ho in Ho'. injection Ho' as <-.
  rewrite Hv in Hget. injection Hget as <-.
  assert (Hstored : forall d, OptionDict.get self k' d = v0).
  { intros d.
    assert (Hl : lower k = k).
    { assert (Hin : In k (dict_keys (OptionDict._dict self)))
        by (apply dict_get_In_keys; eauto).
      apply (constructed_keys _ _ _ k Hinit) in Hin as (p & _ & <- & _).
      apply lower_idem. }
    unfold OptionDict.get. now rewrite Hk', Hv0. }
  unfold cast_option_value in Hcast.
  unfold OptionDict.getstr, OptionDict.getint, OptionDict.getfloat,
    OptionDict.getbool.
  rewrite Hstored.
  destruct (Option.type o).
  - destruct (value_to_string v0) as [e | s] eqn:E; [discriminate |].
    injection Hcast as <-. exists s.
    destruct v0; simpl in *; auto; injection E as <-; auto.
  - destruct (value_to_int v0) as [e | z] eqn:E; [discriminate |].
    injection Hcast as <-. exists z.
    destruct v0; simpl in *; auto; injection E as <-; auto.
  - destruct (value_to_bool v0) as [e | b] eqn:E; [discriminate |].
    injection Hcast as <-. exists b.
    destruct v0; simpl in *; auto; injection E as <-; auto.
  - destruct (value_to_float v0) as [e | f] eqn:E; [discriminate |].
    injection Hcast as <-. exists f.
    destruct v0; simpl in *; auto; injection E as <-; auto.
Qed.

Lemma typed_accessors_agree_with_casted_witness :
  exists z,
    OptionDict.getint (host := CPython.host) Sample.constructed "Size" VNone
    = Ok z
    /\ VInt 10 = of_optional VInt z.
Proof.
  apply (typed_accessors_agree_with_casted CPython.host
           Sample.mapping Sample.options Sample.constructed
           [("name", VStr "abc"); ("indent", VInt 4); ("size", VInt 10)]
           "size" "Size" (VInt 10) VNone
           (Option.__init__ "size" (Some OptionType_int) VNone None None true));
    reflexivity.
Defined.

(** ** Construction looks at keys only *)

Lemma dict_keys_set_congr {V : Type} (k : string) (v v' : V) (d d' : dict V) :
  dict_keys d = dict_keys d' ->
  dict_keys (dict_set k v d) = dict_keys (dict_set k v' d').
Proof.
  revert d'. induction d as [|[k0 v0] d IH]; intros [|[k0' v0'] d']; simpl;
    try discriminate.
  - reflexivity.
  - intros [= <- Hrest].
    destruct (String.eqb k k0); simpl; f_equal; auto.
Qed.

Lemma dict_get_keys_congr {V : Type} (k : string) (d d' : dict V) :
  dict_keys d = dict_keys d' ->
  (dict_get k d = None <-> dict_get k d' = None).
Proof.
  intros H. now rewrite !dict_get_None_keys, H.
Qed.

(** Two raw mappings with the same keys drive the loop of [__init__] the
    same way. *)
Lemma init_loop_keys_only (mapping mapping' : dict Value)
    (options : list Option.t) (self self' : OptionDict.t) :
  dict_keys mapping = dict_keys mapping' ->
  dict_keys (OptionDict._dict self) = dict_keys (OptionDict._dict self') ->
  OptionDict._options self = OptionDict._options self' ->
  match OptionDict.init_loop mapping (OptionDict.build_keymap mapping)
          options self,
        OptionDict.init_loop mapping' (OptionDict.build_keymap mapping')
          options self' with
  | inl e, inl e' => e = e'
  | inr s, inr s' =>
      dict_keys (OptionDict._dict s) = dict_keys (OptionDict._dict s')
      /\ OptionDict._options s = OptionDict._options s'
  | _, _ => False
  end.
Proof.
  intros Hkeys.
  assert (Hkm : OptionDict.build_keymap mapping'
                = OptionDict.build_keymap mapping)
    by (unfold OptionDict.build_keymap; now rewrite Hkeys).
  rewrite Hkm. revert self self'.
  induction options as [|h options IH]; intros self self' Hd Ho; simpl.
  - auto.
  - destruct (dict_get (lower (Option.name h)) (OptionDict.build_keymap mapping))
      as [key|] eqn:Hkey.
    + destruct (keymap_get_Some _ _ _ Hkey) as (_ & v & Hv).
      assert (Hv' : exists v', dict_get key mapping' = Some v').
      { apply dict_get_In_keys. rewrite <- Hkeys. apply dict_get_In_keys. eauto. }
      destruct Hv' as [v' Hv']. rewrite Hv, Hv'.
      apply IH; simpl; [now apply dict_keys_set_congr | now rewrite Ho].
    + destruct (Option.is_required h); [reflexivity |].
      destruct (negb (is_None (Option.default h)));
        apply IH; simpl;
        [now apply dict_keys_set_congr | now rewrite Ho
        | assumption | now rewrite Ho].
Qed.

(** X9. Construction looks at the keys of the raw mapping only, never at
    its values: two raw mappings with the same keys are both accepted, with
    the same keys and the same options recorded, or both rejected with the
    same exception.  Values are stored as they come; they are coerced, and
    can fail to be, only when read. *)
Theorem construction_ignores_values (mapping mapping' : dict Value)
    (options : list Option.t) :
  dict_keys mapping = dict_keys mapping' ->
  (forall e,
      OptionDict.__init__ mapping options = raise e ->
      OptionDict.__init__ mapping' options = raise e)
  /\ (forall self,
        OptionDict.__init__ mapping options = Ok self ->
        exists self',
          OptionDict.__init__ mapping' options = Ok self'
          /\ OptionDict.__iter__ self' = OptionDict.__iter__ self
          /\ OptionDict._options self' = OptionDict._options self).
Proof.
  intros Hkeys.
  pose proof (init_loop_keys_only mapping mapping' options
                {| OptionDict._dict := []; OptionDict._options := [] |}
                {| OptionDict._dict := []; OptionDict._options := [] |}
                Hkeys eq_refl eq_refl) as Hloop.
  unfold OptionDict.__init__, OptionDict.__iter__.
  destruct (OptionDict.init_loop mapping (OptionDict.build_keymap mapping)
              options _) as [e | s];
    destruct (OptionDict.init_loop mapping' (OptionDict.build_keymap mapping')
                options _) as [e' | s']; try contradiction; simpl.
  - subst e'. split; [auto | discriminate].
  - destruct Hloop as [Hd Ho].
    assert (Hextra : OptionDict.extra_keys mapping' s'
                     = OptionDict.extra_keys mapping s)
      by (unfold OptionDict.extra_keys; now rewrite Hkeys, Hd).
    rewrite Hextra.
    destruct (OptionDict.extra_keys mapping s); split; try discriminate.
    + intros self [= <-]. exists s'. auto.
    + auto.
Qed.

Lemma construction_ignores_values_witness :
  exists self',
    OptionDict.__init__ [("name", VObject 7); ("size", VNone)] Sample.options
    = Ok self'
    /\ OptionDict.__iter__ self' = OptionDict.__iter__ Sample.constructed
    /\ OptionDict._options self' = OptionDict._options Sample.constructed.
Proof.
  destruct (construction_ignores_values Sample.mapping
              [("name", VObject 7); ("size", VNone)] Sample.options eq_refl)
    as [_ H].
  apply H. reflexivity.
Defined.

(* ================================================================= *)
(** * Further properties of the extension registry *)

Section RegistrationProperties.

Import ExtensionRegistry.

Context {Class : Type}.
Variable issubclass_Extensible : Class -> bool.

Lemma registered_names_In (self : t Class) (x : string) :
  In x (registered_names self)
  <-> In x (dict_keys (classes self)) \/ In x (dict_keys (modules self)).
Proof.
  unfold registered_names.
  now rewrite sorted_In, set_union_In, !set_of_In.
Qed.

(** X10. [register(name, c)] with a class deriving from [Extensible] binds
    [name] to [c] in [classes], replacing what was bound, and changes
    nothing else: not the other names, not [modules], not the name of the
    catalog.  With any other class it raises [AssertionError] and changes
    nothing at all. *)
Theorem register_lookup (self : t Class) (ext_name : string) (c : Class) :
  (issubclass_Extensible c = true ->
   snd (register issubclass_Extensible self ext_name c) = Ok tt
   /\ dict_get ext_name
        (classes (fst (register issubclass_Extensible self ext_name c)))
      = Some c
   /\ (forall other,
         other <> ext_name ->
         dict_get other
           (classes (fst (register issubclass_Extensible self ext_name c)))
         = dict_get other (classes self))
   /\ modules (fst (register issubclass_Extensible self ext_name c))
      = modules self
   /\ name (fst (register issubclass_Extensible self ext_name c))
      = name self)
  /\ (issubclass_Extensible c = false ->
      register issubclass_Extensible self ext_name c
      = (self, raise AssertionError)).
Proof.
  unfold register. split; intros ->; simpl.
  - repeat split.
    + apply dict_get_set_same.
    + intros other Hne. apply dict_get_set_other. congruence.
  - reflexivity.
Qed.

(** X11. No operation of a catalog forgets a name: every name listed by
    [registered_names()] is still listed after [register] and after
    [register_lazy], which add the name they are given. *)
Theorem registered_names_grow (self : t Class) (ext_name module : string)
    (c : Class) :
  (forall x,
      In x (registered_names self) ->
      In x (registered_names
              (fst (register issubclass_Extensible self ext_name c)))
      /\ In x (registered_names (register_lazy self ext_name module)))
  /\ In ext_name (registered_names (register_lazy self ext_name module))
  /\ (issubclass_Extensible c = true ->
      In ext_name
        (registered_names
           (fst (register issubclass_Extensible self ext_name c)))).
Proof.
  split; [| split].
  - intros x Hx. apply registered_names_In in Hx.
    rewrite !registered_names_In. unfold register, register_lazy.
    destruct (issubclass_Extensible c); simpl; rewrite ?dict_keys_set; tauto.
  - rewrite registered_names_In. unfold register_lazy. simpl.
    rewrite dict_keys_set. auto.
  - intros Hc. rewrite registered_names_In. unfold register.
    rewrite Hc. simpl. rewrite dict_keys_set. auto.
Qed.

Context {Host : Type}.
Variable import_module :
  string -> Host * t Class -> (Host * t Class) * option Exception.

(** X12. [register_lazy(name, module)] leaves [classes] and the other
    locators alone and replaces the locator of [name]; if [name] is not in
    [classes], the next [extension(name)] loads exactly that module. *)
Theorem register_lazy_then_extension (w : World Class Host)
    (ext_name module : string) :
  let self' := register_lazy (registry w) ext_name module in
  classes self' = classes (registry w)
  /\ name self' = name (registry w)
  /\ dict_get ext_name (modules self') = Some module
  /\ (forall other, other <> ext_name ->
        dict_get other (modules self') = dict_get other (modules (registry w)))
  /\ (dict_contains ext_name (classes (registry w)) = false ->
      imported
        (fst (extension import_module ext_name
                {| host := host w; registry := self';
                   imported := imported w |}))
      = (imported w ++ [module])%list).
Proof.
  simpl. repeat split.
  - apply dict_get_set_same.
  - intros other Hne. apply dict_get_set_other. congruence.
  - intros Hc. unfold extension, load_if_lazy, dict_contains. simpl.
    unfold dict_contains in Hc.
    destruct (dict_get ext_name (classes (registry w))); [discriminate |].
    rewrite dict_get_set_same. simpl.
    destruct (import_module module
                (host w, register_lazy (registry w) ext_name module))
      as [[h r] [e|]]; simpl; [reflexivity |].
    destruct (dict_get ext_name (classes r)); reflexivity.
Qed.

(** X13. A load that does not register the name is not remembered: if
    the module of a lazily known name runs and leaves the catalog as it
    was, [extension(name)] raises [InternalError], and the next call loads
    the module again. *)
Theorem failed_load_is_retried (h h1 h2 : Host) (r : t Class)
    (log : list string) (ext_name module : string) :
  dict_contains ext_name (classes r) = false ->
  dict_get ext_name (modules r) = Some module ->
  import_module module (h, r) = ((h1, r), None) ->
  import_module module (h1, r) = ((h2, r), None) ->
  let first_call :=
    extension import_module ext_name
      {| host := h; registry := r; imported := log |} in
  let second_call := extension import_module ext_name (fst first_call) in
  snd first_call = raise (unknown_extension r ext_name)
  /\ snd second_call = raise (unknown_extension r ext_name)
  /\ fst second_call
     = {| host := h2; registry := r;
          imported := (log ++ [module; module])%list |}.
Proof.
  intros Hc Hm H1 H2. unfold dict_contains in Hc.
  destruct (dict_get ext_name (classes r)) eqn:Hcls; [discriminate |].
  assert (Hcall : forall h0 h0' log0,
             import_module module (h0, r) = ((h0', r), None) ->
             extension import_module ext_name
               {| host := h0; registry := r; imported := log0 |}
             = ({| host := h0'; registry := r;
                   imported := (log0 ++ [module])%list |},
                raise (unknown_extension r ext_name))).
  { intros h0 h0' log0 Himp.
    unfold extension, load_if_lazy, dict_contains. simpl.
    rewrite Hcls, Hm. simpl. rewrite Himp. simpl. now rewrite Hcls. }
  simpl. rewrite (Hcall _ _ _ H1). simpl. rewrite (Hcall _ _ _ H2). simpl.
  repeat split. now rewrite <- app_assoc.
Qed.

End RegistrationProperties.

Lemma register_lookup_witness :
  dict_get "pretty"
    (ExtensionRegistry.classes
       (fst (ExtensionRegistry.register Example.issubclass_Extensible
               Example.printers "pretty" "FancyPrinter")))
  = Some "FancyPrinter".
Proof.
  destruct (register_lookup Example.issubclass_Extensible Example.printers
              "pretty" "FancyPrinter") as [H _].
  apply H. reflexivity.
Defined.

Lemma registered_names_grow_witness :
  In "pretty3"
    (ExtensionRegistry.registered_names
       (fst (ExtensionRegistry.register Example.issubclass_Extensible
               Example.printers "pretty3" "Pretty3Printer"))).
Proof.
  destruct (registered_names_grow Example.issubclass_Extensible
              Example.printers "pretty3" "printers.pretty3" "Pretty3Printer")
    as (_ & _ & H).
  apply H. reflexivity.
Defined.

Lemma register_lazy_then_extension_witness :
  ExtensionRegistry.imported
    (fst (Example.extension "ghost"
            {| ExtensionRegistry.host := tt;
               ExtensionRegistry.registry :=
                 ExtensionRegistry.register_lazy Example.printers
                   "ghost" "printers.pretty2";
               ExtensionRegistry.imported := ["printers.empty"] |}))
  = ["printers.empty"; "printers.pretty2"].
Proof.
  destruct (register_lazy_then_extension Example.import_module
              {| ExtensionRegistry.host := tt;
                 ExtensionRegistry.registry := Example.printers;
                 ExtensionRegistry.imported := ["printers.empty"] |}
              "ghost" "printers.pretty2") as (_ & _ & _ & _ & H).
  apply H. reflexivity.
Defined.

Lemma failed_load_is_retried_witness :
  fst (Example.extension "ghost"
         (fst (Example.extension "ghost" (Example.world Example.printers))))
  = {| ExtensionRegistry.host := tt;
       ExtensionRegistry.registry := Example.printers;
       ExtensionRegistry.imported := ["printers.empty"; "printers.empty"] |}.
Proof.
  apply (failed_load_is_retried Example.import_module tt tt tt
           Example.printers [] "ghost" "printers.empty");
    reflexivity.
Defined.

(** ** [describe] *)

Section DescribeProperties.

Import ExtensionRegistry.

Context {Class Host : Type}.
Variable import_module :
  string -> Host * t Class -> (Host * t Class) * option Exception.
Variable extension_desc : Class -> option string.
Variable class_doc : Class -> option string.
Variable extension_label : Class -> option string.
Variable extension_options : Class -> list Option.t.

Lemma str_or_nonempty (a : option string) (b : string) :
  b <> "" -> str_or a b <> "".
Proof. destruct a as [[|c s]|]; simpl; auto. discriminate. Qed.

Lemma str_or_truthy (a : option string) (b s : string) :
  a = Some s -> s <> "" -> str_or a b = s.
Proof. intros -> Hne. destruct s; [contradiction | reflexivity]. Qed.

Lemma str_or_falsy (a : option string) (b : string) :
  a = None \/ a = Some "" -> str_or a b = b.
Proof. intros [-> | ->]; reflexivity. Qed.

(** X14. [describe(name)] does to the catalog and the process what
    [extension(name)] does, lazy load included, and fails as it fails.
    When the class is found, the description carries the name asked for,
    the name of the catalog and the options of the class; its label is the
    label of the class, or the name asked for when the class has none or an
    empty one; its documentation is never empty: the description of the
    class, else its docstring, else "(No documentation)". *)
Theorem describe_outcome (ext_name : string) (w : World Class Host) :
  let describe :=
    describe import_module extension_desc class_doc extension_label
      extension_options in
  (forall w' e,
      extension import_module ext_name w = (w', raise e) ->
      describe ext_name w = (w', raise e))
  /\ (forall w' ext,
        extension import_module ext_name w = (w', Ok ext) ->
        exists d,
          describe ext_name w = (w', Ok d)
          /\ ExtensionDescription.name d = ext_name
          /\ ExtensionDescription.type d = name (registry w')
          /\ ExtensionDescription.options d = extension_options ext
          /\ ExtensionDescription.doc d <> ""
          /\ (ext_name <> "" -> ExtensionDescription.label d <> "")
          /\ (forall l, extension_label ext = Some l -> l <> "" ->
                ExtensionDescription.label d = l)
          /\ (extension_label ext = None \/ extension_label ext = Some "" ->
              ExtensionDescription.label d = ext_name)
          /\ (forall s, extension_desc ext = Some s -> s <> "" ->
                ExtensionDescription.doc d = s)
          /\ (extension_desc ext = None \/ extension_desc ext = Some "" ->
              forall s, class_doc ext = Some s -> s <> "" ->
                ExtensionDescription.doc d = s)
          /\ (extension_desc ext = None \/ extension_desc ext = Some "" ->
              class_doc ext = None \/ class_doc ext = Some "" ->
              ExtensionDescription.doc d = "(No documentation)")).
Proof.
  simpl. unfold describe. split.
  - intros w' e ->. reflexivity.
  - intros w' ext ->.
    exists (description_of extension_desc class_doc extension_label
              extension_options (registry w') ext_name ext).
    split; [reflexivity |]. unfold description_of. simpl.
    split; [reflexivity |]. split; [reflexivity |].
    split; [now destruct (extension_options ext) |].
    split; [apply str_or_nonempty, str_or_nonempty; discriminate |].
    split; [apply str_or_nonempty |].
    split; [intros l; apply str_or_truthy |].
    split; [apply str_or_falsy |].
    split; [intros s; apply str_or_truthy |].
    split.
    + intros Hdesc s Hs Hne. rewrite (str_or_falsy _ _ Hdesc).
      now apply str_or_truthy.
    + intros Hdesc Hdoc. rewrite (str_or_falsy _ _ Hdesc).
      now apply str_or_falsy.
Qed.

End DescribeProperties.

Lemma describe_outcome_witness :
  exists d,
    Extensible.describe Printers.import_printer "pretty" Printers.world
    = (Printers.world, Ok d)
    /\ ExtensionDescription.name d = "pretty"
    /\ ExtensionDescription.type d = "printer"
    /\ ExtensionDescription.label d = "pretty"
    /\ ExtensionDescription.doc d = "Prints with indentation.".
Proof.
  destruct (describe_outcome Printers.import_printer
              Extensible.extension_desc Extensible.__doc__
              Extensible.extension_label Extensible.extension_options
              "pretty" Printers.world) as [_ H].
  destruct (H Printers.world Printers.PrettyPrinter eq_refl)
    as (d & Hd & Hname & Htype & _ & _ & _ & _ & Hlabel & _ & Hdoc & _).
  exists d. split; [exact Hd |]. split; [exact Hname |].
  split; [exact Htype |]. split.
  - apply Hlabel. left. reflexivity.
  - apply (Hdoc (or_introl eq_refl)); [reflexivity | discriminate].
Defined.

(* ================================================================= *)
(** * Properties of the table of catalogs and of [Extensible] *)

Lemma registry_existing (n : string) (table : Extensible.registries)
    (r : ExtensionRegistry.t Extensible.cls) :
  dict_get n table = Some r -> Extensible.registry n table = (table, r).
Proof.
  intros H. unfold Extensible.registry, dict_contains.
  rewrite H. simpl. now rewrite H.
Qed.

Lemma registry_fresh (n : string) (table : Extensible.registries) :
  dict_get n table = None ->
  Extensible.registry n table
  = (dict_set n (ExtensionRegistry.__init__ n) table,
     ExtensionRegistry.__init__ n).
Proof.
  intros H. unfold Extensible.registry, dict_contains.
  rewrite H. simpl. now rewrite dict_get_set_same.
Qed.

(** X15. [ExtensionRegistry.registry(name)] returns the catalog stored
    under [name], creating an empty catalog of that name on first
    reference; it touches no other entry, and a second call returns the
    same catalog and leaves the table as it is. *)
Theorem registry_creates_once (n : string) (table : Extensible.registries) :
  let table1 := fst (Extensible.registry n table) in
  let r1 := snd (Extensible.registry n table) in
  Extensible.registry n table1 = (table1, r1)
  /\ dict_get n table1 = Some r1
  /\ (forall other, other <> n -> dict_get other table1 = dict_get other table)
  /\ (dict_get n table = None -> r1 = ExtensionRegistry.__init__ n)
  /\ (forall r, dict_get n table = Some r -> table1 = table /\ r1 = r).
Proof.
  destruct (dict_get n table) as [r|] eqn:Hn; simpl.
  - rewrite (registry_existing _ _ _ Hn). simpl.
    rewrite (registry_existing _ _ _ Hn).
    split; [reflexivity |]. split; [assumption |]. split; [reflexivity |].
    split; [discriminate |]. now intros r' [= <-].
  - rewrite (registry_fresh _ _ Hn). simpl.
    assert (Hset : dict_get n (dict_set n (ExtensionRegistry.__init__ n) table)
                   = Some (ExtensionRegistry.__init__ n))
      by apply dict_get_set_same.
    rewrite (registry_existing _ _ _ Hset).
    split; [reflexivity |]. split; [assumption |]. split.
    + intros other Hne. apply dict_get_set_other. congruence.
    + split; [reflexivity | discriminate].
Qed.


(** After the definition of a class that is not a base, the catalog of its
    extension point binds its extension name to it. *)
Lemma init_subclass_found (c : Extensible.cls) (table : Extensible.registries) :
  exists r,
    dict_get (Extensible.extension_type c)
      (fst (Extensible.__init_subclass__ c false table)) = Some r
    /\ dict_get (Extensible.extension_name c) (ExtensionRegistry.classes r)
       = Some c.
Proof.
  unfold Extensible.__init_subclass__.
  destruct (Extensible.registry (Extensible.extension_type c) table)
    as [table1 r1].
  simpl. eexists. split; [apply dict_get_set_same |].
  simpl. apply dict_get_set_same.
Qed.

Section ExtensibleProperties.

Context {Host : Type}.
Variable import_module :
  string -> Host * Extensible.registries ->
  (Host * Extensible.registries) * option Exception.

(** X17. A class that has been defined is found by name: after the
    definition of a class that is not a base, [concrete_extension] of its
    extension name, called on any class of the same extension point,
    returns that class, loads nothing and leaves the process as it is. *)
Theorem subclass_then_concrete_extension (c c' : Extensible.cls)
    (table : Extensible.registries) (h : Host) (log : list string) :
  Extensible.extension_type c' = Extensible.extension_type c ->
  let p :=
    {| Extensible.host := h;
       Extensible._global_registries :=
         fst (Extensible.__init_subclass__ c false table);
       Extensible.imported := log |} in
  Extensible.concrete_extension import_module c'
    (Extensible.extension_name c) p
  = (p, Ok c).
Proof.
  intros Htype. simpl.
  destruct (init_subclass_found c table) as (r & Hr & Hc).
  unfold Extensible.concrete_extension. simpl.
  rewrite Htype, (registry_existing _ _ _ Hr).
  unfold ExtensionRegistry.extension, ExtensionRegistry.load_if_lazy,
    dict_contains. simpl.
  rewrite Hc. simpl. now rewrite Hc.
Qed.

(** X18. Looking up an extension of a point that has no catalog yet
    creates the empty catalog of that point, loads nothing, and raises
    [InternalError] naming the extension and the point. *)
Theorem concrete_extension_creates_catalog (c : Extensible.cls)
    (ext_name : string) (table : Extensible.registries) (h : Host)
    (log : list string) :
  dict_get (Extensible.extension_type c) table = None ->
  Extensible.concrete_extension import_module c ext_name
    {| Extensible.host := h;
       Extensible._global_registries := table;
       Extensible.imported := log |}
  = ({| Extensible.host := h;
        Extensible._global_registries :=
          dict_set (Extensible.extension_type c)
            (ExtensionRegistry.__init__ (Extensible.extension_type c)) table;
        Extensible.imported := log |},
     raise (InternalError
              ("Unknown extension '" ++ ext_name ++ "' of type '"
               ++ Extensible.extension_type c ++ "'"))).
Proof.
  intros Hnone. unfold Extensible.concrete_extension. simpl.
  now rewrite (registry_fresh _ _ Hnone).
Qed.

Context {Instance : Type}.
Variable construct : Extensible.cls -> dict Value -> result Instance.
Context {builtins : Builtins}.

(** X19. When [create_with_dict(mapping)] returns an instance, the
    constructor was called once, with keyword arguments that are the
    coerced option dictionary of the mapping against the options of the
    class: their names are distinct, in lower case, each the lowercased
    name of a declared option; every key of the raw mapping and every
    required option is among them. *)
Theorem create_with_dict_kwargs (c : Extensible.cls) (mapping : dict Value)
    (instance : Instance) :
  Extensible.create_with_dict construct c mapping = Ok instance ->
  exists options kwargs,
    OptionDict.__init__ mapping (Extensible.extension_options c) = Ok options
    /\ OptionDict.casted options = Ok kwargs
    /\ construct c kwargs = Ok instance
    /\ NoDup (dict_keys kwargs)
    /\ (forall k, In k (dict_keys kwargs) ->
          lower k = k
          /\ In k (declared_names (Extensible.extension_options c)))
    /\ (forall k, In k (dict_keys mapping) -> In k (dict_keys kwargs))
    /\ (forall o, In o (Extensible.extension_options c) ->
          Option.is_required o = true ->
          In (lower (Option.name o)) (dict_keys kwargs)).
Proof.
  unfold Extensible.create_with_dict, Extensible.create_with_options.
  destruct (OptionDict.__init__ mapping (Extensible.extension_options c))
    as [e | options] eqn:Hinit; [discriminate |].
  simpl.
  destruct (OptionDict.casted options) as [e | kwargs] eqn:Hcast;
    [discriminate |].
  simpl. intros Hcons. exists options, kwargs.
  destruct (casted_outcome_aux _ _ _ _ _ Hinit Hcast) as [Hkeys _].
  destruct (constructed_wf _ _ _ Hinit) as [Hnd _].
  split; [first [reflexivity | exact Hinit] |].
  split; [first [reflexivity | exact Hcast] |]. split; [exact Hcons |].
  rewrite Hkeys. split; [exact Hnd |]. split; [| split].
  - intros k Hk. apply (constructed_keys _ _ _ k Hinit) in Hk
      as (o & Ho & <- & _).
    split; [apply lower_idem |].
    unfold declared_names.
    now apply in_map with (f := fun o => lower (Option.name o)).
  - intros k Hk. now apply constructed_has_raw_keys with mapping
      (Extensible.extension_options c).
  - intros o Ho Hreq. apply (constructed_keys _ _ _ _ Hinit).
    exists o. repeat split; try assumption. left.
    destruct (in_dec string_dec (lower (Option.name o))
                (map lower (dict_keys mapping))) as [H | H]; [exact H |].
    exfalso.
    destruct (init_loop_required mapping (Extensible.extension_options c)
                {| OptionDict._dict := []; OptionDict._options := [] |})
      as (pre & o' & post & _ & _ & _ & _ & Hrun); [now exists o |].
    destruct (init_Ok_inv _ _ _ Hinit) as [Hok _].
    rewrite Hrun in Hok. discriminate.
Qed.

End ExtensibleProperties.

Lemma subclass_then_concrete_extension_witness :
  Extensible.concrete_extension Printers.import_module Printers.PrettyPrinter
    "pretty" Printers.process
  = (Printers.process, Ok Printers.PrettyPrinter).
Proof.
  apply (subclass_then_concrete_extension Printers.import_module
           Printers.PrettyPrinter Printers.PrettyPrinter [] tt []).
  reflexivity.
Defined.

Lemma concrete_extension_creates_catalog_witness :
  Extensible.concrete_extension Printers.import_module Printers.PrettyPrinter
    "nope"
    {| Extensible.host := tt;
       Extensible._global_registries := [];
       Extensible.imported := [] |}
  = ({| Extensible.host := tt;
        Extensible._global_registries :=
          [("printer", ExtensionRegistry.__init__ "printer")];
        Extensible.imported := [] |},
     raise (InternalError "Unknown extension 'nope' of type 'printer'")).
Proof.
  apply (concrete_extension_creates_catalog Printers.import_module
           Printers.PrettyPrinter "nope" [] tt []).
  reflexivity.
Defined.

Lemma create_with_dict_kwargs_witness :
  exists options kwargs,
    OptionDict.__init__ [("indent", VStr "10")]
      (Extensible.extension_options Printers.PrettyPrinter) = Ok options
    /\ OptionDict.casted (host := CPython.host) options = Ok kwargs
    /\ Printers.construct Printers.PrettyPrinter kwargs
       = Ok ("PrettyPrinter", [("indent", VInt 10)])
    /\ NoDup (dict_keys kwargs)
    /\ (forall k, In k (dict_keys kwargs) ->
          lower k = k
          /\ In k (declared_names
                     (Extensible.extension_options Printers.PrettyPrinter)))
    /\ (forall k, In k (dict_keys [("indent", VStr "10")]) ->
          In k (dict_keys kwargs))
    /\ (forall o,
          In o (Extensible.extension_options Printers.PrettyPrinter) ->
          Option.is_required o = true ->
          In (lower (Option.name o)) (dict_keys kwargs)).
Proof.
  apply (create_with_dict_kwargs (builtins := CPython.host)
           Printers.construct Printers.PrettyPrinter
           [("indent", VStr "10")] ("PrettyPrinter", [("indent", VInt 10)])).
  reflexivity.
Defined.

(** ** The test suite, end to end *)

Section EndToEnd.

Let host : Builtins := CPython.host.
Existing Instance host.

(** [test_subclass] and [test_options]: the class defined under "pretty"
    is found, and instances built from [{}], [{"indent": 8}] and
    [{"indent": "10"}] get [indent] 4, 8 and 10. *)
Example test_suite :
  snd (Extensible.concrete_extension Printers.import_module
         Printers.PrettyPrinter "pretty" Printers.process)
  = Ok Printers.PrettyPrinter
  /\ Extensible.create_with_dict Printers.construct Printers.PrettyPrinter []
     = Ok ("PrettyPrinter", [("indent", VInt 4)])
  /\ Extensible.create_with_dict Printers.construct Printers.PrettyPrinter
       [("indent", VInt 8)]
     = Ok ("PrettyPrinter", [("indent", VInt 8)])
  /\ Extensible.create_with_dict Printers.construct Printers.PrettyPrinter
       [("indent", VStr "10")]
     = Ok ("PrettyPrinter", [("indent", VInt 10)]).
Proof. repeat split. Qed.

(** A class registered lazily is defined by the load of its module, which
    enters it into the table of catalogs. *)
Example lazy_class_through_the_table :
  let p :=
    {| Extensible.host := tt;
       Extensible._global_registries :=
         [("printer",
           ExtensionRegistry.register_lazy Printers.catalog
             "plain" "printers.plain")];
       Extensible.imported := [] |} in
  let after :=
    Extensible.concrete_extension Printers.import_module
      Printers.PrettyPrinter "plain" p in
  snd after = Ok Printers.PlainPrinter
  /\ Extensible.imported (fst after) = ["printers.plain"]
  /\ Extensible.concrete_extension Printers.import_module
       Printers.PrettyPrinter "plain" (fst after)
     = (fst after, Ok Printers.PlainPrinter).
Proof. repeat split. Qed.

End EndToEnd.
